(** * Medical research assistant: chunker, parser, evidence store, search
    capability and answer orchestrator

    A shallow embedding of the Python back end ([src/backend]) and the
    properties its specification states about it.

    Conventions of the embedding.
    - Python [str] is [string]; [len] is the number of characters, as a [Z].
    - Python [int] is [Z]; [None]-able values are [option].
    - Truthiness ([if topic:], [if results.error:]) is written out with
      [truthy].
    - Objects mutated in place ([self.last_sources], the Chroma collections,
      the topic-mapping cache) are threaded as explicit state.
    - What lives outside the repository is an interface: the Unicode tables
      and the XML serializer of the Python runtime ([PythonRuntime]), the
      similarity search of ChromaDB ([SimilarityBackend]) and the generative
      model behind the Anthropic client ([ModelEndpoint]). *)

From Stdlib Require Import ZArith Ascii.
From stdpp Require Import gmap strings list pretty.

Set Warnings "-register-all,-clear-no-such-hyp".

Local Open Scope Z_scope.

(** ** Python built-ins *)

Class Len (A : Type) := len : A → Z.
Global Instance len_string : Len string := λ s, Z.of_nat (String.length s).
Global Instance len_list {A} : Len (list A) := λ l, Z.of_nat (length l).

Class Truthy (A : Type) := truthy : A → bool.
Global Instance truthy_string : Truthy string := λ s, bool_decide (s ≠ "").
Global Instance truthy_list {A} : Truthy (list A) :=
  λ l, match l with [] => false | _ => true end.
(** A pair is a non-empty tuple: always true. *)
Global Instance truthy_pair {A B} : Truthy (A * B) := λ _, true.
Global Instance truthy_option {A} `{Truthy A} : Truthy (option A) :=
  λ o, match o with None => false | Some a => truthy a end.

(** [sep.join(parts)] *)
Definition join (sep : string) (parts : list string) : string :=
  String.concat sep parts.

(** [sub in s] on strings *)
Fixpoint str_in (sub s : string) : bool :=
  String.prefix sub s ||
  match s with
  | "" => false
  | String _ s' => str_in sub s'
  end.

(** [s.endswith(suffix)] *)
Definition endswith (s suffix : string) : bool :=
  String.prefix (String.rev suffix) (String.rev s).

(** The newline character, as a string *)
Definition nl : string := String "010" "".

(** [x or d] on an optional string *)
Definition or_else (o : option string) (d : string) : string :=
  match o with
  | Some s => if truthy s then s else d
  | None => d
  end.

(** ** models.py *)

Module Paper.
Record t := mk {
  title : string;
  pmcid : option string;
  doi : option string;
  journal : option string;
  year : option Z;
  authors : list string;
  paper_type : option string;
  topic : option string;
  keywords : list string
}.
End Paper.

Module PaperChunk.
Record t := mk {
  content : string;
  paper_title : string;
  pmcid : option string;
  doi : option string;
  journal : option string;
  year : option Z;
  topic : option string;
  section_title : option string;
  chunk_index : Z
}.
End PaperChunk.

(** The search tool records its sources as dicts with the two keys of
    [models.Source]. *)
Module Source.
Record t := mk {
  text : string;
  url : option string
}.
End Source.

(** ** xml.etree.ElementTree: the element tree and the paths the parser uses *)

Module ET.
#[local] Unset Elimination Schemes.
Inductive Element :=
  mk (tag : string) (attrib : list (string * string)) (text : option string)
     (children : list Element) (tail : option string).
#[local] Set Elimination Schemes.

Definition tag (e : Element) := let 'mk t _ _ _ _ := e in t.
Definition attrib (e : Element) := let 'mk _ a _ _ _ := e in a.
Definition text (e : Element) := let 'mk _ _ t _ _ := e in t.
Definition children (e : Element) := let 'mk _ _ _ c _ := e in c.
Definition tail (e : Element) := let 'mk _ _ _ _ t := e in t.

(** [e.get(key)] *)
Fixpoint get (a : list (string * string)) (key : string) : option string :=
  match a with
  | [] => None
  | (k, v) :: a' => if decide (k = key) then Some v else get a' key
  end.

(** All elements below [e], in document order ([e] itself excluded). *)
Fixpoint descendants (e : Element) : list Element :=
  match e with
  | mk _ _ _ cs _ => flat_map (λ c, c :: descendants c) cs
  end.

Definition has_tag (name : string) (e : Element) : bool :=
  bool_decide (tag e = name).
Definition has_attr (key value : string) (e : Element) : bool :=
  bool_decide (get (attrib e) key = Some value).

(** [e.findall('.//name')] and [e.find('.//name')] *)
Definition findall_desc (name : string) (e : Element) : list Element :=
  List.filter (has_tag name) (descendants e).
Definition find_desc (name : string) (e : Element) : option Element :=
  head (findall_desc name e).

(** [e.findall('.//name[@key="value"]')] and the [find] of the same path *)
Definition findall_desc_attr (name key value : string) (e : Element)
  : list Element :=
  List.filter (λ d, has_tag name d && has_attr key value d) (descendants e).
Definition find_desc_attr (name key value : string) (e : Element)
  : option Element :=
  head (findall_desc_attr name key value e).

(** [e.findall('name')]: direct children only *)
Definition findall_child (name : string) (e : Element) : list Element :=
  List.filter (has_tag name) (children e).
Definition find_child (name : string) (e : Element) : option Element :=
  head (findall_child name e).
End ET.

(** ** The Python runtime the document processor relies on *)

Class PythonRuntime := {
  (** [str.isspace] on one character: what [str.strip] removes and what the
      regular expression class [\s] matches *)
  isspace : ascii → bool;
  (** the regular expression class [\w] *)
  isword : ascii → bool;
  (** [int(text)]; [None] stands for [ValueError] *)
  py_int : string → option Z;
  (** [ET.tostring(root, encoding='unicode')] *)
  ET_tostring : ET.Element → string;
  (** [s.lower()] *)
  lower : string → string;
  (** [json.dumps] of a list of strings *)
  json_dumps : list string → string
}.

(** ** document_processor.py *)

Module DocumentProcessor.
Section with_runtime.
Context {runtime : PythonRuntime}.

Record t := mk {
  chunk_size : Z;
  chunk_overlap : Z;
  (** [self._topic_mapping]: the cache, [None] until the first load *)
  _topic_mapping : option (gmap string string)
}.

(** [DocumentProcessor(chunk_size, chunk_overlap)] *)
Definition __init__ (chunk_size chunk_overlap : Z) : t :=
  mk chunk_size chunk_overlap None.

(** *** Whitespace *)

Fixpoint lstrip (s : string) : string :=
  match s with
  | "" => ""
  | String c s' => if isspace c then lstrip s' else s
  end.

Fixpoint rstrip (s : string) : string :=
  match s with
  | "" => ""
  | String c s' =>
      match rstrip s' with
      | "" => if isspace c then "" else String c ""
      | r => String c r
      end
  end.

(** [s.strip()] *)
Definition strip (s : string) : string := rstrip (lstrip s).

(** [re.sub(r'\s+', ' ', s)]: every maximal run of whitespace becomes one
    space. [in_run] tells that the previous character was whitespace. *)
Fixpoint sub_spaces (in_run : bool) (s : string) : string :=
  match s with
  | "" => ""
  | String c s' =>
      if isspace c
      then if in_run then sub_spaces true s' else String " " (sub_spaces true s')
      else String c (sub_spaces false s')
  end.

Definition normalize_whitespace (s : string) : string := sub_spaces false s.

(** *** The sentence boundary pattern

    [(?<!\w\.\w.)(?<![A-Z][a-z]\.)(?<=\.|\!|\?)\s+(?=[A-Z])]

    The three look-behinds read the characters before the position, given
    here most recent first. *)

Definition is_upper (c : ascii) : bool :=
  let n := nat_of_ascii c in (65 <=? n)%nat && (n <=? 90)%nat.
Definition is_lower (c : ascii) : bool :=
  let n := nat_of_ascii c in (97 <=? n)%nat && (n <=? 122)%nat.
Definition is_char (c d : ascii) : bool := bool_decide (c = d).

(** [\w\.\w.] ends here; the final [.] is any character but a newline *)
Definition behind_abbreviation (before : list ascii) : bool :=
  match before with
  | c4 :: c3 :: c2 :: c1 :: _ =>
      isword c1 && is_char c2 "." && isword c3 && negb (is_char c4 "010")
  | _ => false
  end.

(** [[A-Z][a-z]\.] ends here *)
Definition behind_initial (before : list ascii) : bool :=
  match before with
  | c3 :: c2 :: c1 :: _ => is_upper c1 && is_lower c2 && is_char c3 "."
  | _ => false
  end.

(** [\.|\!|\?] ends here *)
Definition behind_terminator (before : list ascii) : bool :=
  match before with
  | c :: _ => is_char c "." || is_char c "!" || is_char c "?"
  | [] => false
  end.

Definition starts_upper (s : string) : bool :=
  match s with
  | String c _ => is_upper c
  | "" => false
  end.

(** [\s+(?=[A-Z])] at the head of [s], greedy with backtracking: the number
    of characters consumed, if the pattern matches *)
Fixpoint match_spaces (s : string) : option nat :=
  match s with
  | "" => None
  | String c s' =>
      if isspace c then
        match match_spaces s' with
        | Some n => Some (S n)
        | None => if starts_upper s' then Some 1%nat else None
        end
      else None
  end.

(** The whole pattern at a position: [before] is the text to the left
    (most recent character first), [s] the text to the right. *)
Definition match_boundary (before : list ascii) (s : string) : option nat :=
  if negb (behind_abbreviation before) && negb (behind_initial before)
     && behind_terminator before
  then match_spaces s
  else None.

(** [sentence_endings.split(text)]: scan left to right, cut at every match.
    [skip] counts the characters of the current match still to drop and
    [piece] holds the current piece, most recent character first. *)
Fixpoint split_go (before : list ascii) (skip : nat) (piece : list ascii)
    (s : string) : list string :=
  match s with
  | "" => [String.string_of_list_ascii (rev piece)]
  | String c s' =>
      match skip with
      | S k => split_go (c :: before) k piece s'
      | O =>
          match match_boundary before s with
          | Some n =>
              String.string_of_list_ascii (rev piece)
                :: split_go (c :: before) (Nat.pred n) [] s'
          | None => split_go (c :: before) O (c :: piece) s'
          end
      end
  end.

Definition sentence_endings_split (text : string) : list string :=
  split_go [] O [] text.

(** Lines 30-40 of [chunk_text]: the cleaned sentences of a text.
    [[s.strip() for s in sentences if s.strip()]] *)
Definition sentences_of (text : string) : list string :=
  let text := normalize_whitespace (strip text) in
  let sentences := sentence_endings_split text in
  strip <$> List.filter (λ s, truthy (strip s)) sentences.

(** *** The packing loop *)

(** The inner [for j in range(i, len(sentences))] loop of [chunk_text], run
    over the sentences from index [i] on. Returns [current_chunk] and
    [current_size] as they are when the loop ends or breaks. *)
Fixpoint build_chunk (chunk_size : Z) (rest : list string)
    (current_chunk : list string) (current_size : Z) : list string * Z :=
  match rest with
  | [] => (current_chunk, current_size)
  | sentence :: rest' =>
      let space_size := if truthy current_chunk then 1 else 0 in
      let total_addition := len sentence + space_size in
      if (current_size + total_addition >? chunk_size) && truthy current_chunk
      then (current_chunk, current_size)
      else build_chunk chunk_size rest' (current_chunk ++ [sentence])
             (current_size + total_addition)
  end.

(** The [for k in range(len(current_chunk) - 1, -1, -1)] loop: walks the
    chunk backwards ([rev_chunk] is the chunk reversed; [at_end] tells that
    [k = len(current_chunk) - 1]) and returns [overlap_sentences]. *)
Fixpoint count_overlap (chunk_overlap : Z) (rev_chunk : list string)
    (at_end : bool) (overlap_size overlap_sentences : Z) : Z :=
  match rev_chunk with
  | [] => overlap_sentences
  | sentence :: rev_chunk' =>
      let sentence_len := len sentence + (if at_end then 0 else 1) in
      if overlap_size + sentence_len <=? chunk_overlap
      then count_overlap chunk_overlap rev_chunk' false
             (overlap_size + sentence_len) (overlap_sentences + 1)
      else overlap_sentences
  end.

(** One iteration of [while i < len(sentences)]: the new [i] and [chunks]. *)
Definition loop_body (self : t) (sentences : list string)
    (st : Z * list string) : Z * list string :=
  let '(i, chunks) := st in
  let '(current_chunk, _) :=
    build_chunk (chunk_size self) (drop (Z.to_nat i) sentences) [] 0 in
  if truthy current_chunk then
    let chunks := chunks ++ [join " " current_chunk] in
    if chunk_overlap self >? 0 then
      let overlap_sentences :=
        count_overlap (chunk_overlap self) (rev current_chunk) true 0 0 in
      let next_start := i + len current_chunk - overlap_sentences in
      (Z.max next_start (i + 1), chunks)
    else (i + len current_chunk, chunks)
  else (i + 1, chunks).

(** The [while] loop, with [fuel] bounding the number of iterations;
    [None] when the fuel runs out before the loop condition fails. *)
Fixpoint while_loop (fuel : nat) (self : t) (sentences : list string)
    (st : Z * list string) : option (Z * list string) :=
  if fst st <? len sentences then
    match fuel with
    | O => None
    | S fuel' => while_loop fuel' self sentences (loop_body self sentences st)
    end
  else Some st.

(** The state after [n] iterations of the loop body. *)
Definition after_iterations (self : t) (sentences : list string) (n : nat)
  : Z * list string :=
  Nat.iter n (loop_body self sentences) (0, []).

(** [chunk_text(text)]. One iteration per sentence is enough fuel
    ([while_loop_returns] below), so the last branch is never taken. *)
Definition chunk_text (self : t) (text : string) : list string :=
  let sentences := sentences_of text in
  match while_loop (length sentences) self sentences (0, []) with
  | Some (_, chunks) => chunks
  | None => []
  end.

(** *** Metadata and element text *)

(** The two metadata files of [metadata_dir], as [json.load] reads them:
    the [(title, topic)] pairs of the entries under ["papers"] (a missing
    key reads as the empty string), or [None] for a file that does not
    exist or cannot be read. *)
Record MetadataDir := {
  medical_papers_metadata : option (list (string * string));
  replacement_papers_metadata : option (list (string * string))
}.

Definition load_metadata_file (mapping : gmap string string)
    (file : option (list (string * string))) : gmap string string :=
  match file with
  | None => mapping
  | Some papers =>
      foldl (λ m '(title, topic),
               if truthy title && truthy topic then <[title:=topic]> m else m)
            mapping papers
  end.

(** Returns the mapping and the processor with its cache filled. *)
Definition _load_topic_mapping (self : t) (metadata_dir : MetadataDir)
  : gmap string string * t :=
  match _topic_mapping self with
  | Some mapping => (mapping, self)
  | None =>
      let metadata_files :=
        [medical_papers_metadata metadata_dir;
         replacement_papers_metadata metadata_dir] in
      let mapping := foldl load_metadata_file ∅ metadata_files in
      (mapping, mk (chunk_size self) (chunk_overlap self) (Some mapping))
  end.

Fixpoint extract_text (element : ET.Element) : string :=
  match element with
  | ET.mk _ _ text children _ =>
      strip (foldl (λ text child,
                      text +:+ extract_text child +:+ or_else (ET.tail child) "")
                   (or_else text "") children)
  end.

Definition _extract_text_from_element (element : option ET.Element) : string :=
  match element with
  | None => ""
  | Some e => extract_text e
  end.

Definition restriction_marker : string :=
  "does not allow downloading of the full text in XML form".

Definition _check_if_abstract_only (root : ET.Element) : bool :=
  if str_in restriction_marker (ET_tostring root) then true
  else match ET.find_desc "body" root with
       | None => true
       | Some body => bool_decide (len (ET.children body) = 0)
       end.

Definition _parse_authors (root : ET.Element) : list string :=
  match ET.find_desc "contrib-group" root with
  | None => []
  | Some contrib_group =>
      foldl (λ authors contrib,
               match ET.find_desc "surname" contrib with
               | None => authors
               | Some surname_elem =>
                   let surname := or_else (ET.text surname_elem) "" in
                   let given_names :=
                     match ET.find_desc "given-names" contrib with
                     | None => ""
                     | Some given_names_elem =>
                         or_else (ET.text given_names_elem) ""
                     end in
                   if truthy given_names
                   then authors ++ [given_names +:+ " " +:+ surname]
                   else authors ++ [surname]
               end)
            []
            (ET.findall_desc_attr "contrib" "contrib-type" "author"
               contrib_group)
  end.

Definition _parse_keywords (root : ET.Element) : list string :=
  foldl (λ keywords kwd,
           match ET.text kwd with
           | Some text => if truthy text then keywords ++ [strip text]
                          else keywords
           | None => keywords
           end)
        [] (ET.findall_desc "kwd" root).

Definition _extract_abstract (root : ET.Element) : option string :=
  match ET.find_desc "abstract" root with
  | Some abstract =>
      let abstract_text := _extract_text_from_element (Some abstract) in
      let abstract_text := strip (normalize_whitespace abstract_text) in
      if truthy abstract_text then Some abstract_text else None
  | None => None
  end.

(** [title_elem.text.strip() if title_elem is not None and title_elem.text
    else fallback] *)
Definition text_or (elem : option ET.Element) (fallback : string) : string :=
  match elem with
  | Some e =>
      match ET.text e with
      | Some text => if truthy text then strip text else fallback
      | None => fallback
      end
  | None => fallback
  end.

(** [x = None; if elem is not None and elem.text: x = elem.text.strip()] *)
Definition text_of (elem : option ET.Element) : option string :=
  match elem with
  | Some e =>
      match ET.text e with
      | Some text => if truthy text then Some (strip text) else None
      | None => None
      end
  | None => None
  end.

(** Lines 207-209: the title of a section element. *)
Definition section_label (sec : ET.Element) : string :=
  text_or (ET.find_child "title" sec) "Untitled Section".

(** Lines 211-221: the content of a section element, [None] when it has
    no paragraph with text. *)
Definition section_content (sec : ET.Element) : option string :=
  let content_parts :=
    List.filter (λ p_text, truthy p_text)
      ((λ p, _extract_text_from_element (Some p))
         <$> ET.findall_desc "p" sec) in
  if truthy content_parts then
    let content := join " " content_parts in
    Some (strip (normalize_whitespace content))
  else None.

Definition _extract_body_sections (root : ET.Element)
  : list (string * string) :=
  match ET.find_desc "body" root with
  | None => []
  | Some body =>
      foldl (λ sections sec,
               let title := section_label sec in
               match section_content sec with
               | Some content => sections ++ [(title, content)]
               | None => sections
               end)
            [] (ET.findall_desc "sec" body)
  end.

(** *** process_medical_paper *)

(** A file as the parser meets it: [os.path.basename(file_path)] and the
    root that [ET.parse(file_path).getroot()] yields, [None] when parsing
    raises. *)
Record XmlFile := {
  basename : string;
  getroot : option ET.Element
}.

(** [f"Paper: {title} | Section: {section_title}\n{chunk}"] *)
Definition chunk_with_context (title section_title chunk : string) : string :=
  "Paper: " +:+ title +:+ " | Section: " +:+ section_title
    +:+ nl +:+ chunk.

(** The [PaperChunk(...)] that both loops build: the text with its
    context header, the paper's fields, the section and the counter. *)
Definition make_chunk (paper : Paper.t) (section_title text : string)
    (chunk_counter : Z) : PaperChunk.t :=
  PaperChunk.mk
    (chunk_with_context (Paper.title paper) section_title text)
    (Paper.title paper) (Paper.pmcid paper) (Paper.doi paper)
    (Paper.journal paper) (Paper.year paper) (Paper.topic paper)
    (Some section_title) chunk_counter.

(** Lines 306-326: the abstract as a single chunk. Returns [paper_chunks]
    and [chunk_counter]. *)
Definition abstract_chunks (paper : Paper.t) (abstract : option string)
  : list PaperChunk.t * Z :=
  let paper_chunks := [] in
  let chunk_counter := 0 in
  if truthy abstract then
    let paper_chunk :=
      make_chunk paper "Abstract" (default "" abstract) chunk_counter in
    (paper_chunks ++ [paper_chunk], chunk_counter + 1)
  else (paper_chunks, chunk_counter).

(** Lines 333-347: the chunks of one section appended to [paper_chunks]. *)
Definition section_chunks (paper : Paper.t) (section_title : string)
    (chunks : list string) (acc : list PaperChunk.t * Z)
  : list PaperChunk.t * Z :=
  foldl (λ '(paper_chunks, chunk_counter) chunk,
           let paper_chunk :=
             make_chunk paper section_title chunk chunk_counter in
           (paper_chunks ++ [paper_chunk], chunk_counter + 1))
        acc chunks.

(** Lines 306-349: all chunks of a paper, from the extracted abstract and
    body sections. *)
Definition build_paper_chunks (self : t) (paper : Paper.t)
    (abstract : option string) (sections : list (string * string))
  : list PaperChunk.t :=
  fst (foldl (λ acc '(section_title, section_content),
                let chunks := chunk_text self section_content in
                section_chunks paper section_title chunks acc)
             (abstract_chunks paper abstract) sections).

(** [None] in the first component: the paper is skipped. The second
    component is the processor, whose topic cache the call may fill. *)
Definition process_medical_paper (self : t) (file : XmlFile)
    (metadata_dir : MetadataDir)
  : option (Paper.t * list PaperChunk.t) * t :=
  match getroot file with
  | None => (None, self)
  | Some root =>
      if _check_if_abstract_only root then (None, self)
      else
        let title := text_or (ET.find_desc "article-title" root)
                       (basename file) in
        let pmcid :=
          text_of (ET.find_desc_attr "article-id" "pub-id-type" "pmcid" root) in
        let doi :=
          text_of (ET.find_desc_attr "article-id" "pub-id-type" "doi" root) in
        let journal := text_of (ET.find_desc "journal-title" root) in
        let year :=
          match text_of (head (flat_map (ET.findall_child "year")
                                 (ET.findall_desc "pub-date" root))) with
          | Some year_text => py_int year_text
          | None => None
          end in
        let paper_type :=
          text_of (head (flat_map (ET.findall_child "subject")
                           (ET.findall_desc_attr "subj-group"
                              "subj-group-type" "heading" root))) in
        let authors := _parse_authors root in
        let keywords := _parse_keywords root in
        let '(topic_mapping, self) := _load_topic_mapping self metadata_dir in
        let topic := topic_mapping !! title in
        let paper :=
          Paper.mk title pmcid doi journal year authors paper_type topic
            keywords in
        let abstract := _extract_abstract root in
        let sections := _extract_body_sections root in
        (Some (paper, build_paper_chunks self paper abstract sections), self)
  end.

(** Lines 240-250 on their own: the title under which a file is parsed,
    [None] when the file is skipped. *)
Definition file_title (file : XmlFile) : option string :=
  match getroot file with
  | None => None
  | Some root =>
      if _check_if_abstract_only root then None
      else Some (text_or (ET.find_desc "article-title" root) (basename file))
  end.
End with_runtime.
End DocumentProcessor.

(** ** vector_store.py *)

(** Metadata values are flat scalars: strings and integers. *)
Inductive MetaValue :=
  | MStr (s : string)
  | MInt (z : Z).

Global Instance MetaValue_eq_dec : EqDecision MetaValue.
Proof. solve_decision. Defined.

Global Instance truthy_MetaValue : Truthy MetaValue :=
  λ v, match v with MStr s => truthy s | MInt z => bool_decide (z ≠ 0) end.

(** [f"{v}"] *)
Definition format_value (v : MetaValue) : string :=
  match v with MStr s => s | MInt z => pretty z end.

(** A [where] clause of ChromaDB, as [_build_filter] produces them:
    [{key: value}], [{key: {"$gte": lo, "$lte": hi}}] and [{"$and": [...]}]. *)
Inductive Where :=
  | FieldEq (key value : string)
  | FieldRange (key : string) (gte lte : Z)
  | And (filters : list Where).

(** One stored entry of a collection. *)
Record Entry := {
  entry_id : string;
  entry_document : string;
  entry_metadata : gmap string MetaValue
}.

(** A collection, as the list of its entries in insertion order.
    [collection.add] appends: it does not look for an entry with the same id. *)
Definition collection_add (c : list Entry) (new : list Entry) : list Entry :=
  c ++ new.

(** The result dict of [collection.query] for one query text. *)
Record ChromaResult {distance : Type} := {
  chroma_documents : option (list (list string));
  chroma_metadatas : option (list (list (gmap string MetaValue)));
  chroma_distances : option (list (list distance))
}.
Global Arguments ChromaResult : clear implicits.

(** The similarity search of the backend. *)
Class SimilarityBackend := {
  (** relevance distances are floating-point numbers, left abstract *)
  distance : Type;
  (** [collection.query(query_texts=[text], n_results=n, where=f)] on a
      collection; [inr msg] when it raises an exception [e] with
      [str(e) = msg] *)
  collection_query :
    list Entry → string → Z → option Where → ChromaResult distance + string
}.

Module SearchResults.
Section with_backend.
Context {backend : SimilarityBackend}.

Record t := mk {
  documents : list string;
  metadata : list (gmap string MetaValue);
  distances : list distance;
  error : option string
}.

(** [r[key][0] if r[key] else []] *)
Definition first_or_empty {A} (field : option (list (list A))) : list A :=
  match field with
  | Some (first :: _) => first
  | _ => []
  end.

Definition from_chroma (chroma_results : ChromaResult distance) : t :=
  mk (first_or_empty (chroma_documents chroma_results))
     (first_or_empty (chroma_metadatas chroma_results))
     (first_or_empty (chroma_distances chroma_results))
     None.

Definition empty (error_msg : string) : t := mk [] [] [] (Some error_msg).

Definition is_empty (self : t) : bool := bool_decide (len (documents self) = 0).
End with_backend.
End SearchResults.

Module VectorStore.
Section with_backend.
Context {runtime : PythonRuntime} {backend : SimilarityBackend}.

Record t := mk {
  max_results : Z;
  (** paper metadata, one entry per paper, the title as id *)
  paper_catalog : list Entry;
  (** paper chunks *)
  paper_content : list Entry
}.

Definition _build_filter (topic paper_type : option string)
    (year_range : option (Z * Z)) : option Where :=
  let filters := [] in
  let filters :=
    match topic with
    | Some t => if truthy t then filters ++ [FieldEq "topic" t] else filters
    | None => filters
    end in
  let filters :=
    match paper_type with
    | Some p => if truthy p then filters ++ [FieldEq "paper_type" p]
                else filters
    | None => filters
    end in
  let filters :=
    match year_range with
    | Some (min_year, max_year) =>
        if truthy (min_year, max_year)
        then filters ++ [FieldRange "year" min_year max_year]
        else filters
    | None => filters
    end in
  match filters with
  | [] => None
  | [f] => Some f
  | _ => Some (And filters)
  end.

Definition search (self : t) (query : string) (topic paper_type : option string)
    (year_range : option (Z * Z)) (limit : option Z) : SearchResults.t :=
  let filter_dict := _build_filter topic paper_type year_range in
  let search_limit :=
    match limit with Some l => l | None => max_results self end in
  match collection_query (paper_content self) query search_limit filter_dict with
  | inl results => SearchResults.from_chroma results
  | inr e => SearchResults.empty ("Search error: " +:+ e)
  end.

(** An optional value under [key]; [None] values are left out. *)
Definition put (key : string) (value : option MetaValue)
    (m : gmap string MetaValue) : gmap string MetaValue :=
  match value with
  | Some v => <[key:=v]> m
  | None => m
  end.

Definition add_paper_metadata (self : t) (paper : Paper.t) : t :=
  let paper_text :=
    Paper.title paper +:+ " " +:+ join " " (Paper.keywords paper) in
  let metadata :=
    put "title" (Some (MStr (Paper.title paper)))
    (put "topic" (MStr <$> Paper.topic paper)
    (put "journal" (MStr <$> Paper.journal paper)
    (put "year" (MInt <$> Paper.year paper)
    (put "paper_type" (MStr <$> Paper.paper_type paper)
    (put "pmcid" (MStr <$> Paper.pmcid paper)
    (put "doi" (MStr <$> Paper.doi paper)
    (put "authors_json" (Some (MStr (json_dumps (Paper.authors paper))))
    (put "keywords_json" (Some (MStr (json_dumps (Paper.keywords paper))))
    (put "author_count" (Some (MInt (len (Paper.authors paper))))
       ∅))))))))) in
  mk (max_results self)
     (collection_add (paper_catalog self)
        [Build_Entry (Paper.title paper) paper_text metadata])
     (paper_content self).

(** [s.replace(old, new)] for single characters *)
Fixpoint replace (s : string) (old new : ascii) : string :=
  match s with
  | "" => ""
  | String c s' =>
      String (if decide (c = old) then new else c) (replace s' old new)
  end.

Definition chunk_entry (chunk : PaperChunk.t) : Entry :=
  let metadata :=
    put "paper_title" (Some (MStr (PaperChunk.paper_title chunk)))
    (put "topic" (MStr <$> PaperChunk.topic chunk)
    (put "section_title" (MStr <$> PaperChunk.section_title chunk)
    (put "chunk_index" (Some (MInt (PaperChunk.chunk_index chunk)))
    (put "pmcid" (MStr <$> PaperChunk.pmcid chunk)
    (put "doi" (MStr <$> PaperChunk.doi chunk)
    (put "journal" (MStr <$> PaperChunk.journal chunk)
    (put "year" (MInt <$> PaperChunk.year chunk)
       ∅))))))) in
  let id :=
    replace (replace (PaperChunk.paper_title chunk) " " "_") "/" "_"
      +:+ "_" +:+ pretty (PaperChunk.chunk_index chunk) in
  Build_Entry id (PaperChunk.content chunk) metadata.

Definition add_paper_content (self : t) (chunks : list PaperChunk.t) : t :=
  if negb (truthy chunks) then self
  else mk (max_results self) (paper_catalog self)
         (collection_add (paper_content self) (chunk_entry <$> chunks)).

Definition clear_all_data (self : t) : t := mk (max_results self) [] [].

Definition get_existing_paper_titles (self : t) : list string :=
  entry_id <$> paper_catalog self.

Definition get_paper_count (self : t) : Z :=
  len (entry_id <$> paper_catalog self).

(** [paper_title] is the value read from a chunk's metadata. The catalog
    is asked for the entries with that id. A title that is not a string
    names no entry: the result is [None], whether the lookup finds nothing
    or raises into the handler. *)
Definition get_paper_url (self : t) (paper_title : MetaValue) : option string :=
  match paper_title with
  | MInt _ => None
  | MStr paper_title =>
      match List.filter (λ e, bool_decide (entry_id e = paper_title))
              (paper_catalog self) with
      | [] => None
      | e :: _ =>
          let metadata := entry_metadata e in
          if truthy (metadata !! "pmcid") then
            Some ("https://www.ncbi.nlm.nih.gov/pmc/articles/"
                    +:+ from_option format_value "" (metadata !! "pmcid")
                    +:+ "/")
          else if truthy (metadata !! "doi") then
            Some ("https://doi.org/"
                    +:+ from_option format_value "" (metadata !! "doi"))
          else None
      end
  end.
End with_backend.
End VectorStore.

(** ** The tool-calling protocol of the generative model *)

(** The keyword arguments of the search capability, as its schema declares
    them: [query] is required, the rest optional. *)
Record ToolInput := {
  query : string;
  topic : option string;
  paper_type : option string;
  min_year : option Z;
  max_year : option Z
}.

(** Requests to and responses from [self.client.messages.create]. *)
Module Api.
Inductive ContentBlock :=
  | TextBlock (text : string)
  | ToolUseBlock (id name : string) (input : ToolInput)
  (** any other block: one without a [text] attribute *)
  | OtherBlock (type : string).

Record Response := {
  stop_reason : string;
  content : list ContentBlock
}.

(** [{"type": "tool_result", "tool_use_id": id, "content": result}] *)
Record ToolResult := {
  tool_use_id : string;
  result_content : string
}.

Inductive MessageContent :=
  | Text (text : string)
  | Blocks (blocks : list ContentBlock)
  | ToolResults (results : list ToolResult).

Record Message := {
  role : string;
  message_content : MessageContent
}.

(** A tool definition: name, description, properties (name, type,
    description) and required properties. *)
Record ToolDefinition := {
  def_name : string;
  def_description : string;
  def_properties : list (string * string * string);
  def_required : list string
}.

(** The keyword arguments of [messages.create]; [tools] and [tool_choice]
    are [None] when the key is absent. *)
Record Params := {
  model : string;
  temperature : Z;
  max_tokens : Z;
  messages : list Message;
  system : string;
  tools : option (list ToolDefinition);
  tool_choice : option string
}.
End Api.

(** ** search_tools.py *)

Module MedicalLiteratureSearchTool.
Section with_backend.
Context {runtime : PythonRuntime} {backend : SimilarityBackend}.

(** [self.store] refers to the vector store that the system owns; the
    methods below take its current state as [store]. *)
Record t := mk {
  last_sources : list Source.t
}.

Definition __init__ : t := mk [].

Definition name : string := "search_medical_literature".

Definition get_tool_definition : Api.ToolDefinition :=
  {| Api.def_name := name;
     Api.def_description :=
       "Search medical research papers with optional filters for topic, paper type, and publication year";
     Api.def_properties :=
       [("query", "string",
         "What to search for in the medical literature (e.g., 'diabetes treatment', 'hypertension management')");
        ("topic", "string",
         "Filter by specific topic (e.g., 'Type 2 Diabetes Management', 'Mental Health', 'Cardiovascular Health')");
        ("paper_type", "string",
         "Filter by paper type (e.g., 'Review', 'Meta-Analysis', 'Systematic Review')");
        ("min_year", "integer",
         "Minimum publication year to include (e.g., 2020)");
        ("max_year", "integer",
         "Maximum publication year to include (e.g., 2025)")];
     Api.def_required := ["query"] |}.

(** [key in sources] for the insertion-ordered dict [sources] *)
Definition has_key (sources : list (MetaValue * Source.t)) (key : MetaValue)
  : bool :=
  bool_decide (key ∈ sources.*1).

(** [meta.get(key, default)] *)
Definition get_or (meta : gmap string MetaValue) (key : string)
    (default : string) : MetaValue :=
  from_option id (MStr default) (meta !! key).

(** Line 115: the title under which an item is filed. *)
Definition item_title (meta : gmap string MetaValue) : MetaValue :=
  get_or meta "paper_title" "Unknown Paper".

(** Lines 129-135: the source object built from an item. *)
Definition item_source (store : VectorStore.t) (meta : gmap string MetaValue)
  : Source.t :=
  let paper_title := item_title meta in
  let journal := get_or meta "journal" "Unknown Journal" in
  let year := get_or meta "year" "Unknown Year" in
  let source_text :=
    format_value paper_title +:+ " - " +:+ format_value year
      +:+ " - " +:+ format_value journal in
  let url := VectorStore.get_paper_url store paper_title in
  Source.mk source_text url.

(** One iteration of the loop of [_format_results]: the new [formatted]
    and [sources]. *)
Definition format_one (store : VectorStore.t)
    (acc : list string * list (MetaValue * Source.t))
    (item : string * gmap string MetaValue)
  : list string * list (MetaValue * Source.t) :=
  let '(formatted, sources) := acc in
  let '(doc, meta) := item in
  let paper_title := item_title meta in
  let section := get_or meta "section_title" "" in
  let header := "[" +:+ format_value paper_title in
  let header :=
    if truthy section then header +:+ " | " +:+ format_value section
    else header in
  let header := header +:+ "]" in
  let sources :=
    if negb (has_key sources paper_title)
    then sources ++ [(paper_title, item_source store meta)]
    else sources in
  (formatted ++ [header +:+ nl +:+ doc], sources).

(** The items the loop runs over: [zip(results.documents,
    results.metadata)]. *)
Definition items (results : SearchResults.t)
  : list (string * gmap string MetaValue) :=
  zip (SearchResults.documents results) (SearchResults.metadata results).

(** The dict [sources] and the list [formatted] when the loop ends. *)
Definition format_loop (store : VectorStore.t) (results : SearchResults.t)
  : list string * list (MetaValue * Source.t) :=
  foldl (format_one store) ([], []) (items results).

Definition _format_results (self : t) (store : VectorStore.t)
    (results : SearchResults.t) : string * t :=
  let '(formatted, sources) := format_loop store results in
  let self := mk (sources.*2) in
  (join (nl +:+ nl) formatted, self).

(** Lines 76-81 of [execute] *)
Definition build_year_range (min_year max_year : option Z) : option (Z * Z) :=
  match min_year, max_year with
  | None, None => None
  | _, _ =>
      let min_y := match min_year with Some y => y | None => 1900 end in
      let max_y := match max_year with Some y => y | None => 2100 end in
      Some (min_y, max_y)
  end.

(** Lines 97-104 of [execute] *)
Definition no_results_message (topic paper_type : option string)
    (year_range : option (Z * Z)) : string :=
  let filter_info := "" in
  let filter_info :=
    if truthy topic
    then filter_info +:+ " in topic '" +:+ default "" topic +:+ "'"
    else filter_info in
  let filter_info :=
    if truthy paper_type
    then filter_info +:+ " of type '" +:+ default "" paper_type +:+ "'"
    else filter_info in
  let filter_info :=
    match year_range with
    | Some (y0, y1) =>
        if truthy (y0, y1)
        then filter_info +:+ " from years " +:+ pretty y0 +:+ "-" +:+ pretty y1
        else filter_info
    | None => filter_info
    end in
  "No relevant medical literature found" +:+ filter_info +:+ ".".

(** Lines 91-107 of [execute]: what is done with the facade's answer. *)
Definition handle_results (self : t) (store : VectorStore.t)
    (input : ToolInput) (year_range : option (Z * Z))
    (results : SearchResults.t) : string * t :=
  if truthy (SearchResults.error results)
  then (default "" (SearchResults.error results), self)
  else if SearchResults.is_empty results
  then (no_results_message (topic input) (paper_type input) year_range, self)
  else _format_results self store results.

Definition execute (self : t) (store : VectorStore.t) (input : ToolInput)
  : string * t :=
  let year_range := build_year_range (min_year input) (max_year input) in
  let results :=
    VectorStore.search store (query input) (topic input) (paper_type input)
      year_range None in
  handle_results self store input year_range results.
End with_backend.
End MedicalLiteratureSearchTool.

Module ToolManager.
Section with_backend.
Context {runtime : PythonRuntime} {backend : SimilarityBackend}.

(** [self.tools]: the registered tools by name, in insertion order. *)
Record t := mk {
  tools : list (string * MedicalLiteratureSearchTool.t)
}.

Definition __init__ : t := mk [].

(** [d[key] = value] on an insertion-ordered dict *)
Fixpoint set_item {V} (d : list (string * V)) (key : string) (value : V)
  : list (string * V) :=
  match d with
  | [] => [(key, value)]
  | (k, v) :: d' =>
      if decide (k = key) then (k, value) :: d'
      else (k, v) :: set_item d' key value
  end.

(** [d.get(key)] *)
Fixpoint get_item {V} (d : list (string * V)) (key : string) : option V :=
  match d with
  | [] => None
  | (k, v) :: d' => if decide (k = key) then Some v else get_item d' key
  end.

Definition register_tool (self : t) (tool : MedicalLiteratureSearchTool.t)
  : t :=
  mk (set_item (tools self) MedicalLiteratureSearchTool.name tool).

Definition execute_tool (self : t) (store : VectorStore.t)
    (tool_name : string) (kwargs : ToolInput) : string * t :=
  match get_item (tools self) tool_name with
  | None => ("Tool '" +:+ tool_name +:+ "' not found", self)
  | Some tool =>
      let '(out, tool) := MedicalLiteratureSearchTool.execute tool store kwargs in
      (out, mk (set_item (tools self) tool_name tool))
  end.

Definition get_tool_definitions (self : t) : list Api.ToolDefinition :=
  (λ _, MedicalLiteratureSearchTool.get_tool_definition) <$> tools self.

Definition get_last_sources (self : t) : list Source.t :=
  match List.filter
          (λ '(_, tool), truthy (MedicalLiteratureSearchTool.last_sources tool))
          (tools self) with
  | (_, tool) :: _ => MedicalLiteratureSearchTool.last_sources tool
  | [] => []
  end.

Definition reset_sources (self : t) : t :=
  mk (prod_map id (λ _, MedicalLiteratureSearchTool.mk []) <$> tools self).
End with_backend.
End ToolManager.

(** ** ai_generator.py *)

(** The endpoint answers a request given the requests made before it;
    [inr msg] when the call raises. *)
Class ModelEndpoint := {
  messages_create : list Api.Params → Api.Params → Api.Response + string
}.

Module AIGenerator.
Section with_collaborators.
Context {runtime : PythonRuntime} {backend : SimilarityBackend}
        {endpoint : ModelEndpoint}.

Record t := mk {
  (** the class constant [SYSTEM_PROMPT] *)
  SYSTEM_PROMPT : string;
  model : string
}.

(** *** Effects: model calls, tool executions, exceptions *)

Inductive Event :=
  | ModelCall (params : Api.Params)
  | ToolExecution (tool_name : string) (kwargs : ToolInput).

Inductive result (A : Type) :=
  | Return (a : A)
  | Raise (e : string).
Global Arguments Return {A} a.
Global Arguments Raise {A} e.

(** The tool manager as it is now ([None]: no manager was passed) and the
    events so far. *)
Record State := {
  tool_manager : option ToolManager.t;
  events : list Event
}.

Definition M (A : Type) : Type := State → result A * State.

Definition ret {A} (a : A) : M A := λ st, (Return a, st).
Definition raise {A} (e : string) : M A := λ st, (Raise e, st).
Definition bind {A B} (m : M A) (k : A → M B) : M B :=
  λ st, match m st with
        | (Return a, st') => k a st'
        | (Raise e, st') => (Raise e, st')
        end.

Notation "x <- m ;; k" := (bind m (λ x, k))
  (at level 100, m at next level, right associativity).

Definition model_calls (evs : list Event) : list Api.Params :=
  omap (λ ev, match ev with ModelCall p => Some p | _ => None end) evs.

Definition tool_executions (evs : list Event) : list (string * ToolInput) :=
  omap (λ ev, match ev with ToolExecution n k => Some (n, k) | _ => None end)
    evs.

(** [self.client.messages.create] with [params], inside a [try]: the response,
    or the message of the exception. *)
Definition try_create (params : Api.Params) : M (Api.Response + string) :=
  λ st,
    (Return (messages_create (model_calls (events st)) params),
     Build_State (tool_manager st) (events st ++ [ModelCall params])).

(** The same call outside any [try]. *)
Definition create (params : Api.Params) : M Api.Response :=
  r <- try_create params;;
  match r with
  | inl response => ret response
  | inr e => raise e
  end.

(** [tool_manager.execute_tool] with [name] and the keywords of [input] *)
Definition execute_tool (store : VectorStore.t) (name : string)
    (input : ToolInput) : M string :=
  λ st,
    match tool_manager st with
    | None => (Raise "AttributeError", st)
    | Some tm =>
        let '(out, tm) := ToolManager.execute_tool tm store name input in
        (Return out,
         Build_State (Some tm) (events st ++ [ToolExecution name input]))
    end.

(** The invocations that a response requests: its [tool_use] blocks. *)
Definition requested (response : Api.Response)
  : list (string * string * ToolInput) :=
  omap (λ block, match block with
                 | Api.ToolUseBlock id name input => Some (id, name, input)
                 | _ => None
                 end)
    (Api.content response).

(** *** The two passes *)

Definition apology : string :=
  "I apologize, but I encountered an issue generating a response. Please try again.".

Definition base_params (self : t) (messages : list Api.Message)
    (system : string) : Api.Params :=
  {| Api.model := model self; Api.temperature := 0; Api.max_tokens := 2048;
     Api.messages := messages; Api.system := system;
     Api.tools := None; Api.tool_choice := None |}.

(** The [for content_block in initial_response.content] loop *)
Fixpoint execute_tool_calls (store : VectorStore.t)
    (blocks : list Api.ContentBlock) (tool_results : list Api.ToolResult)
  : M (list Api.ToolResult) :=
  match blocks with
  | [] => ret tool_results
  | Api.ToolUseBlock id name input :: blocks' =>
      tool_result <- execute_tool store name input;;
      execute_tool_calls store blocks'
        (tool_results ++ [Api.Build_ToolResult id tool_result])
  | _ :: blocks' => execute_tool_calls store blocks' tool_results
  end.

(** The [for attempt in range(max_retries + 1)] loop over the attempts
    that remain. *)
Fixpoint final_call (max_retries : nat) (attempts : list nat)
    (final_params : Api.Params) : M string :=
  match attempts with
  | [] => ret apology
  | attempt :: attempts' =>
      r <- try_create final_params;;
      match r with
      | inr e =>
          if (attempt <? max_retries)%nat
          then final_call max_retries attempts' final_params
          else raise e
      | inl final_response =>
          match Api.content final_response with
          | Api.TextBlock text :: _ => ret text
          | _ =>
              if (attempt <? max_retries)%nat
              then final_call max_retries attempts' final_params
              else ret apology
          end
      end
  end.

Definition _handle_tool_execution (self : t) (store : VectorStore.t)
    (initial_response : Api.Response) (base : Api.Params) : M string :=
  let messages := Api.messages base in
  let messages :=
    messages ++ [Api.Build_Message "assistant"
                   (Api.Blocks (Api.content initial_response))] in
  tool_results <- execute_tool_calls store (Api.content initial_response) [];;
  let messages :=
    if truthy tool_results
    then messages ++ [Api.Build_Message "user" (Api.ToolResults tool_results)]
    else messages in
  let final_params := base_params self messages (Api.system base) in
  let max_retries := 1%nat in
  final_call max_retries (seq 0 (max_retries + 1)) final_params.

(** [response.content[0].text] *)
Definition first_text (response : Api.Response) : M string :=
  match Api.content response with
  | [] => raise "IndexError"
  | Api.TextBlock text :: _ => ret text
  | _ :: _ => raise "AttributeError"
  end.

(** Lines 69-86: the parameters of the first call. *)
Definition initial_params (self : t) (query : string)
    (conversation_history : option string)
    (tools : option (list Api.ToolDefinition)) : Api.Params :=
  let system_content :=
    if truthy conversation_history
    then SYSTEM_PROMPT self +:+ nl +:+ nl +:+ "Previous conversation:" +:+ nl
           +:+ default "" conversation_history
    else SYSTEM_PROMPT self in
  let api_params :=
    base_params self [Api.Build_Message "user" (Api.Text query)]
      system_content in
  if truthy tools
  then {| Api.model := Api.model api_params;
          Api.temperature := Api.temperature api_params;
          Api.max_tokens := Api.max_tokens api_params;
          Api.messages := Api.messages api_params;
          Api.system := Api.system api_params;
          Api.tools := tools;
          Api.tool_choice := Some "auto" |}
  else api_params.

Definition generate_response (self : t) (store : VectorStore.t)
    (query : string) (conversation_history : option string)
    (tools : option (list Api.ToolDefinition)) : M string :=
  let api_params := initial_params self query conversation_history tools in
  response <- create api_params;;
  λ st,
    if bool_decide (Api.stop_reason response = "tool_use")
       && bool_decide (is_Some (tool_manager st))
    then _handle_tool_execution self store response api_params st
    else first_text response st.

(** A call of [generate_response] with [tool_manager] as passed by the
    caller, from an empty event log. *)
Definition run_generate_response (self : t) (store : VectorStore.t)
    (query : string) (conversation_history : option string)
    (tools : option (list Api.ToolDefinition))
    (tool_manager : option ToolManager.t) : result string * State :=
  generate_response self store query conversation_history tools
    (Build_State tool_manager []).
End with_collaborators.
End AIGenerator.

(** ** rag_system.py *)

Module RAGSystem.
Section with_collaborators.
Context {runtime : PythonRuntime} {backend : SimilarityBackend}.

(** The components that ingestion touches. *)
Record t := mk {
  document_processor : DocumentProcessor.t;
  vector_store : VectorStore.t
}.

Definition add_medical_paper (self : t) (file : DocumentProcessor.XmlFile)
    (metadata_dir : DocumentProcessor.MetadataDir)
  : (option Paper.t * Z) * t :=
  let '(result, processor) :=
    DocumentProcessor.process_medical_paper (document_processor self) file
      metadata_dir in
  match result with
  | None => ((None, 0), mk processor (vector_store self))
  | Some (paper, paper_chunks) =>
      let store := VectorStore.add_paper_metadata (vector_store self) paper in
      let store := VectorStore.add_paper_content store paper_chunks in
      ((Some paper, len paper_chunks), mk processor store)
  end.

(** An entry of [os.listdir(folder_path)]: its name, whether it is a
    regular file, and what parsing it as XML yields. *)
Record DirEntry := {
  file_name : string;
  isfile : bool;
  parsed : option ET.Element
}.

(** The title of the paper that the loop finds in an entry, [None] when
    the entry is passed over (not a file, not [.xml], or skipped by the
    parser). *)
Definition entry_title (entry : DirEntry) : option string :=
  if isfile entry && endswith (lower (file_name entry)) ".xml"
  then DocumentProcessor.file_title
         (DocumentProcessor.Build_XmlFile (file_name entry) (parsed entry))
  else None.

(** The state of the loop over the folder. *)
Record Ingest := {
  system : t;
  existing_paper_titles : gset string;
  total_papers : Z;
  total_chunks : Z
}.

(** The invariant of the loop: the known titles are those of the
    catalog. *)
Definition titles_in_step (st : Ingest) : Prop :=
  existing_paper_titles st
  = list_to_set (VectorStore.get_existing_paper_titles
                   (vector_store (system st))).

(** The body of [for file_name in os.listdir(folder_path)] *)
Definition ingest_file (metadata_dir : DocumentProcessor.MetadataDir)
    (st : Ingest) (entry : DirEntry) : Ingest :=
  if isfile entry && endswith (lower (file_name entry)) ".xml" then
    let '(result, processor) :=
      DocumentProcessor.process_medical_paper
        (document_processor (system st))
        (DocumentProcessor.Build_XmlFile (file_name entry) (parsed entry))
        metadata_dir in
    let store := vector_store (system st) in
    match result with
    | None =>
        Build_Ingest (mk processor store) (existing_paper_titles st)
          (total_papers st) (total_chunks st)
    | Some (paper, paper_chunks) =>
        if bool_decide (Paper.title paper ∉ existing_paper_titles st) then
          let store := VectorStore.add_paper_metadata store paper in
          let store := VectorStore.add_paper_content store paper_chunks in
          Build_Ingest (mk processor store)
            (existing_paper_titles st ∪ {[Paper.title paper]})
            (total_papers st + 1) (total_chunks st + len paper_chunks)
        else
          Build_Ingest (mk processor store) (existing_paper_titles st)
            (total_papers st) (total_chunks st)
    end
  else st.

(** [folder] is the listing of [folder_path], [None] when the path does
    not exist. Returns [(total_papers, total_chunks)] and the system. *)
Definition add_papers_from_folder (self : t) (folder : option (list DirEntry))
    (metadata_dir : DocumentProcessor.MetadataDir) (clear_existing : bool)
  : (Z * Z) * t :=
  let self :=
    if clear_existing
    then mk (document_processor self)
           (VectorStore.clear_all_data (vector_store self))
    else self in
  match folder with
  | None => ((0, 0), self)
  | Some entries =>
      let existing_paper_titles :=
        list_to_set (VectorStore.get_existing_paper_titles (vector_store self)) in
      let st :=
        foldl (ingest_file metadata_dir)
          (Build_Ingest self existing_paper_titles 0 0) entries in
      ((total_papers st, total_chunks st), system st)
  end.
End with_collaborators.
End RAGSystem.

(** ** Instances to run the definitions on: plain ASCII text, a backend
    that returns what it is told to, a model that follows a script *)

Definition ascii_isword (c : ascii) : bool :=
  let n := nat_of_ascii c in
  ((48 <=? n) && (n <=? 57) || (65 <=? n) && (n <=? 90)
   || (97 <=? n) && (n <=? 122) || (n =? 95))%nat.

Definition ascii_lower (c : ascii) : ascii :=
  let n := nat_of_ascii c in
  if ((65 <=? n) && (n <=? 90))%nat then ascii_of_nat (n + 32) else c.

Fixpoint map_string (f : ascii → ascii) (s : string) : string :=
  match s with
  | "" => ""
  | String c s' => String (f c) (map_string f s')
  end.

(** [int(text)] for an optional sign followed by decimal digits. *)
Fixpoint digits_value (acc : Z) (s : string) : option Z :=
  match s with
  | "" => Some acc
  | String c s' =>
      match Ascii.is_nat c with
      | Some d => digits_value (10 * acc + Z.of_nat d) s'
      | None => None
      end
  end.

Definition ascii_int (s : string) : option Z :=
  match s with
  | "" => None
  | String "-" (String c s') => Z.opp <$> digits_value 0 (String c s')
  | String "+" (String c s') => digits_value 0 (String c s')
  | _ => digits_value 0 s
  end.

(** The serialized tree: tags, attributes, text and tails, without the
    escaping of special characters. *)
Definition quote : string := String "034" "".

Fixpoint serialize (e : ET.Element) : string :=
  match e with
  | ET.mk tag attrib text children tail =>
      "<" +:+ tag
        +:+ foldr (λ '(k, v) rest,
                     " " +:+ k +:+ "=" +:+ quote +:+ v +:+ quote +:+ rest)
              "" attrib
        +:+ ">" +:+ default "" text
        +:+ foldr (λ child rest, serialize child +:+ rest) "" children
        +:+ "</" +:+ tag +:+ ">" +:+ default "" tail
  end.

Definition ascii_runtime : PythonRuntime := {|
  isspace := Ascii.is_space;
  isword := ascii_isword;
  py_int := ascii_int;
  ET_tostring := serialize;
  lower := map_string ascii_lower;
  json_dumps := λ l,
    "[" +:+ join ", " ((λ s, quote +:+ s +:+ quote) <$> l) +:+ "]"
|}.



(** A backend that is down for the query "down", finds two chunks of one
    paper and one of another for the query "statins", and finds nothing
    otherwise. *)
Definition statin_meta (section : string) : gmap string MetaValue :=
  {[ "paper_title" := MStr "Statins in primary prevention";
     "journal" := MStr "Heart"; "year" := MInt 2021;
     "section_title" := MStr section ]}.

Definition aspirin_meta : gmap string MetaValue :=
  {[ "paper_title" := MStr "Aspirin revisited"; "year" := MInt 2019 ]}.

Definition sample_backend : SimilarityBackend := {|
  distance := unit;
  collection_query := λ _ query _ _,
    if decide (query = "down") then inr "index unavailable"
    else if decide (query = "statins") then
      inl (Build_ChromaResult unit
             (Some [["Statins lower risk."; "Aspirin is cheap.";
                     "Benefits persist."]])
             (Some [[statin_meta "Abstract"; aspirin_meta;
                     statin_meta "Results"]])
             (Some [[(); (); ()]]))
    else inl (Build_ChromaResult unit (Some [[]]) (Some [[]]) (Some [[]]))
|}.

Definition empty_store : VectorStore.t := VectorStore.mk 5 [] [].

Definition search_input (query : string) (topic : option string)
    (min_year : option Z) : ToolInput :=
  Build_ToolInput query topic None min_year None.

(** A tool that holds a source from an earlier search. *)
Definition used_tool : MedicalLiteratureSearchTool.t :=
  MedicalLiteratureSearchTool.mk
    [Source.mk "Aspirin revisited - 2019 - Unknown Journal" None].

(** A paper with an abstract and two sections, the second without title. *)
Definition elem (tag : string) (text : option string)
    (children : list ET.Element) : ET.Element :=
  ET.mk tag [] text children None.

Definition sample_article : ET.Element :=
  elem "article" None
    [elem "front" None
       [elem "article-meta" None
          [elem "title-group" None
             [elem "article-title" (Some "Statins in primary prevention") []];
           elem "abstract" None
             [elem "p" (Some "Statins lower risk. Benefits persist.") []]]];
     elem "body" None
       [elem "sec" None
          [elem "title" (Some "Methods") [];
           elem "p" (Some "We pooled trials. Follow-up was long.") []];
        elem "sec" None
          [elem "p" (Some "Funding was public.") []]]].

Definition sample_file : DocumentProcessor.XmlFile :=
  DocumentProcessor.Build_XmlFile "PMC1.xml" (Some sample_article).

Definition no_metadata : DocumentProcessor.MetadataDir :=
  DocumentProcessor.Build_MetadataDir None None.

Definition sample_processor : DocumentProcessor.t :=
  DocumentProcessor.__init__ 800 100.

(** A model that answers its calls from a script, one entry per call, and
    fails once the script is used up. *)
Definition scripted_model (script : list (Api.Response + string))
  : ModelEndpoint := {|
  messages_create := λ earlier _,
    default (inr "connection error") (script !! length earlier)
|}.

Definition sample_generator : AIGenerator.t :=
  AIGenerator.mk "You are an AI assistant specialized in medical research."
    "claude".

Definition text_response (text : string) : Api.Response :=
  Api.Build_Response "end_turn" [Api.TextBlock text].

Definition tool_use_response (id : string) (input : ToolInput)
  : Api.Response :=
  Api.Build_Response "tool_use"
    [Api.TextBlock "Let me search.";
     Api.ToolUseBlock id MedicalLiteratureSearchTool.name input].

(** ** The specification's wording, for comparison with the code *)

Module Spec.
(** "each provided criterion becomes an equality (or range, for year)
    predicate", in the order topic, paper type, year range *)
Definition provided_predicates (topic paper_type : option string)
    (year_range : option (Z * Z)) : list Where :=
  match topic with Some t => [FieldEq "topic" t] | None => [] end
  ++ match paper_type with Some p => [FieldEq "paper_type" p] | None => [] end
  ++ match year_range with
     | Some (lo, hi) => [FieldRange "year" lo hi]
     | None => []
     end.

(** "zero criteria → no filter; one criterion → that predicate alone; two
    or more → a logical AND of all predicates" *)
Definition filter_of (predicates : list Where) : option Where :=
  match predicates with
  | [] => None
  | [predicate] => Some predicate
  | _ => Some (And predicates)
  end.

(** A topic or paper type that is the empty string, read as absent. *)
Definition non_empty (criterion : option string) : option string :=
  match criterion with
  | Some "" => None
  | _ => criterion
  end.

(** "open ends default to a wide sentinel range, e.g. [1900, 2100]": a
    complete range when a bound is given, none otherwise *)
Definition year_range (min_year max_year : option Z) : option (Z * Z) :=
  if bool_decide (is_Some min_year ∨ is_Some max_year)
  then Some (default 1900 min_year, default 2100 max_year)
  else None.

(** "at most one entry per document title, keyed by first occurrence
    order": the distinct elements of a list, each at its first occurrence *)
Fixpoint distinct {A} `{EqDecision A} (l : list A) : list A :=
  match l with
  | [] => []
  | x :: l' => x :: filter (λ y, y ≠ x) (distinct l')
  end.

(** "never split mid-sentence": what a chunk is made of, a non-empty run
    of consecutive sentences, [sentences[i : i + n]] *)
Definition is_run (sentences group : list string) : Prop :=
  ∃ i n : nat, (1 ≤ n ∧ i + n ≤ length sentences)%nat
               ∧ group = take n (drop i sentences).

(** "(1) if an abstract section exists, emit exactly one chunk for it ...
    section label Abstract; (2) walk body sections in document order ...
    emitting one EvidenceChunk per resulting piece": the labelled pieces
    of a document, given the abstract and, per section, its label and the
    pieces the chunker made of it *)
Definition labelled_pieces (abstract : option string)
    (sections : list (string * list string)) : list (string * string) :=
  match abstract with Some a => [("Abstract", a)] | None => [] end
  ++ flat_map (λ '(label, pieces), pair label <$> pieces) sections.

(** "with increasing position indices": the [k]-th piece becomes the
    chunk with position index [k] *)
Definition chunks_of (paper : Paper.t) (pieces : list (string * string))
  : list PaperChunk.t :=
  imap (λ k '(label, piece),
          DocumentProcessor.make_chunk paper label piece (Z.of_nat k))
    pieces.
End Spec.

(** * Properties *)

(** ** Strings *)

Lemma append_nil_l (s : string) : "" +:+ s = s.
Proof. reflexivity. Qed.

Lemma append_cons (c : ascii) (a s : string) :
  String c a +:+ s = String c (a +:+ s).
Proof. reflexivity. Qed.

Lemma append_nil_r (s : string) : s +:+ "" = s.
Proof. induction s as [|c s IH]; [done|]. by rewrite append_cons, IH. Qed.

Lemma append_assoc (a b c : string) : (a +:+ b) +:+ c = a +:+ (b +:+ c).
Proof.
  induction a as [|x a IH]; [done|]. by rewrite !append_cons, IH.
Qed.

Lemma length_append (a b : string) :
  String.length (a +:+ b) = (String.length a + String.length b)%nat.
Proof.
  induction a as [|x a IH]; [done|]. rewrite append_cons. simpl. by rewrite IH.
Qed.

Lemma len_append (a b : string) : len (a +:+ b) = len a + len b.
Proof. unfold len, len_string. rewrite length_append. lia. Qed.

Lemma len_nonneg (s : string) : 0 ≤ len s.
Proof. unfold len, len_string. lia. Qed.

Lemma len_pos (s : string) : s ≠ "" → 0 < len s.
Proof. destruct s; [done|]. intros _. unfold len, len_string. simpl. lia. Qed.

Lemma truthy_string_true (s : string) : truthy s = true ↔ s ≠ "".
Proof. unfold truthy, truthy_string. by rewrite bool_decide_eq_true. Qed.

Lemma truthy_string_true_not (s : string) : truthy s = false → s = "".
Proof.
  unfold truthy, truthy_string. rewrite bool_decide_eq_false.
  intros Hs. by destruct (decide (s = "")).
Qed.

Lemma prefix_nil (s : string) : String.prefix "" s = true.
Proof. by destruct s. Qed.

Lemma prefix_app (sub post : string) : String.prefix sub (sub +:+ post) = true.
Proof.
  induction sub as [|c sub IH]; [apply prefix_nil|].
  rewrite append_cons. simpl. destruct (ascii_dec c c); done.
Qed.

Lemma prefix_app_l (sub s post : string) :
  String.prefix sub s = true → String.prefix sub (s +:+ post) = true.
Proof.
  revert s. induction sub as [|c sub IH]; intros s; [intros _; apply prefix_nil|].
  destruct s as [|d s]; [done|]. rewrite append_cons. simpl.
  destruct (ascii_dec c d); [apply IH|done].
Qed.

Create HintDb str_in.

Lemma str_in_nil (s : string) : str_in "" s = true.
Proof. destruct s; simpl; by rewrite ?prefix_nil. Qed.

Lemma str_in_prefix (sub s : string) :
  String.prefix sub s = true → str_in sub s = true.
Proof. destruct s; simpl; intros ->; done. Qed.

Lemma str_in_here (sub post : string) : str_in sub (sub +:+ post) = true.
Proof. apply str_in_prefix, prefix_app. Qed.

Lemma str_in_self (sub : string) : str_in sub sub = true.
Proof. rewrite <- (append_nil_r sub) at 2. apply str_in_here. Qed.

Lemma str_in_cons (sub : string) (c : ascii) (s : string) :
  str_in sub (String c s) = String.prefix sub (String c s) || str_in sub s.
Proof. reflexivity. Qed.

Lemma str_in_app_r (sub pre s : string) :
  str_in sub s = true → str_in sub (pre +:+ s) = true.
Proof.
  intros Hs. induction pre as [|c pre IH]; [done|].
  rewrite append_cons, str_in_cons, IH. apply orb_true_r.
Qed.

Lemma str_in_app_l (sub s post : string) :
  str_in sub s = true → str_in sub (s +:+ post) = true.
Proof.
  induction s as [|c s IH].
  - destruct sub; [intros _; apply str_in_nil|done].
  - rewrite append_cons, !str_in_cons. intros [Hp|Hs]%orb_true_iff.
    + rewrite <- append_cons, prefix_app_l; done.
    + rewrite IH by done. apply orb_true_r.
Qed.

#[global] Hint Resolve str_in_nil str_in_here str_in_self str_in_app_r
  str_in_app_l : str_in.

(** ** Distinct elements *)

Lemma filter_none {A} (f : A → bool) (l : list A) :
  (∀ x, x ∈ l → f x = false) → List.filter f l = [].
Proof.
  induction l as [|x l IH]; intros Hnone; [done|]. simpl.
  rewrite (Hnone x) by left. apply IH. intros y Hy. apply Hnone. by right.
Qed.

Lemma filter_all {A} (P : A → Prop) `{∀ x, Decision (P x)} (l : list A) :
  (∀ x, x ∈ l → P x) → filter P l = l.
Proof.
  induction l as [|x l IH]; intros Hall; [done|].
  rewrite filter_cons_True by (apply Hall; left).
  f_equal. apply IH. intros y Hy. apply Hall. by right.
Qed.

Lemma distinct_NoDup {A} `{EqDecision A} (l : list A) :
  NoDup (Spec.distinct l).
Proof.
  induction l as [|x l IH]; simpl; [constructor|].
  apply NoDup_cons. split; [|by apply NoDup_filter].
  rewrite list_elem_of_filter. by intros [? _].
Qed.

Lemma distinct_elem_of {A} `{EqDecision A} (l : list A) (x : A) :
  x ∈ Spec.distinct l ↔ x ∈ l.
Proof.
  induction l as [|y l IH]; simpl; [done|].
  rewrite !elem_of_cons, list_elem_of_filter, IH.
  destruct (decide (x = y)); tauto.
Qed.

(** ** Evidence store facade: the filter builder *)

(** C1 as stated fails on an empty topic: one criterion is passed, the
    specification's wording asks for the topic predicate, and the builder
    returns no filter. *)
Lemma build_filter_empty_topic :
  VectorStore._build_filter (Some "") None None = None
  ∧ Spec.filter_of (Spec.provided_predicates (Some "") None None)
    = Some (FieldEq "topic" "")
  ∧ VectorStore._build_filter (Some "") None None
    ≠ Spec.filter_of (Spec.provided_predicates (Some "") None None).
Proof. repeat split; [reflexivity..|discriminate]. Qed.

(** C1, amended: for every combination of criteria, where a topic or paper
    type given as the empty string counts as not provided, the builder
    returns no filter for zero criteria, the single predicate unwrapped for
    one, and the conjunction of exactly the provided predicates in the order
    topic, paper type, year range for two or more. *)
Theorem build_filter_correct topic paper_type year_range :
  VectorStore._build_filter topic paper_type year_range
  = Spec.filter_of
      (Spec.provided_predicates (Spec.non_empty topic)
         (Spec.non_empty paper_type) year_range).
Proof.
  unfold VectorStore._build_filter.
  destruct topic as [[|c t]|], paper_type as [[|d p]|],
    year_range as [[lo hi]|]; reflexivity.
Qed.

(** The three cases of the amended claim on non-empty criteria. *)
Example build_filter_two :
  VectorStore._build_filter (Some "Cardiology") None (Some (2020, 2024))
  = Some (And [FieldEq "topic" "Cardiology"; FieldRange "year" 2020 2024]).
Proof. reflexivity. Qed.

Example build_filter_one :
  VectorStore._build_filter None (Some "Review") None
  = Some (FieldEq "paper_type" "Review").
Proof. reflexivity. Qed.

(** ** Search capability: the year range *)

Section search_capability.
Context {runtime : PythonRuntime} {backend : SimilarityBackend}.
Import MedicalLiteratureSearchTool.

Lemma build_year_range_spec min_year max_year :
  build_year_range min_year max_year = Spec.year_range min_year max_year.
Proof. destruct min_year, max_year; reflexivity. Qed.

(** C2: the search capability calls the facade with the complete range
    [(min or 1900, max or 2100)] when at least one bound is given, and
    with no range when neither is. *)
Theorem execute_passes_year_range (self : t) (store : VectorStore.t)
    (q : string) (t p : option string) (lo hi : option Z) :
  execute self store (Build_ToolInput q t p lo hi)
  = handle_results self store (Build_ToolInput q t p lo hi)
      (Spec.year_range lo hi)
      (VectorStore.search store q t p (Spec.year_range lo hi) None)
  ∧ Spec.year_range None None = None
  ∧ (∀ y, Spec.year_range (Some y) None = Some (y, 2100))
  ∧ (∀ y, Spec.year_range None (Some y) = Some (1900, y))
  ∧ (∀ y z, Spec.year_range (Some y) (Some z) = Some (y, z)).
Proof.
  unfold execute. cbn [min_year max_year query topic paper_type].
  rewrite build_year_range_spec. repeat split.
Qed.

(** The example of the specification: [min_year=2022] and no [max_year]. *)
Example year_range_2022 :
  build_year_range (Some 2022) None = Some (2022, 2100).
Proof. reflexivity. Qed.

(** *** Citation sources *)

(** The keys of [sources] as the loop goes: the keys so far, then the new
    titles at their first occurrence. *)
Lemma format_loop_keys (store : VectorStore.t)
    (its : list (string * gmap string MetaValue))
    (formatted : list string) (sources : list (MetaValue * Source.t)) :
  (foldl (format_one store) (formatted, sources) its).2.*1
  = sources.*1
    ++ filter (λ k, k ∉ sources.*1) (Spec.distinct (item_title ∘ snd <$> its)).
Proof.
  revert formatted sources.
  induction its as [|[doc meta] its IH]; intros formatted sources.
  { simpl. by rewrite filter_nil, app_nil_r. }
  cbn [foldl format_one]. rewrite IH. cbn [fmap list_fmap Spec.distinct compose snd].
  unfold has_key. case_bool_decide as Hin; cbn [negb].
  - rewrite filter_cons_False by (intros Hn; exact (Hn Hin)). f_equal.
    rewrite list_filter_filter. apply list_filter_iff.
    intros k. cbn beta. split; [|tauto]. intros Hk. split; [done|]. by intros ->.
  - rewrite filter_cons_True by exact Hin.
    rewrite fmap_app, <- app_assoc. cbn [fmap list_fmap fst app]. do 2 f_equal.
    rewrite list_filter_filter. apply list_filter_iff.
    intros k. cbn beta. rewrite elem_of_app, list_elem_of_singleton. tauto.
Qed.

(** Every entry of [sources] was built from an item of that title. *)
Lemma format_loop_entries (store : VectorStore.t)
    (its : list (string * gmap string MetaValue))
    (formatted : list string) (sources : list (MetaValue * Source.t))
    (k : MetaValue) (src : Source.t) :
  (k, src) ∈ (foldl (format_one store) (formatted, sources) its).2 →
  (k, src) ∈ sources
  ∨ ∃ doc meta, (doc, meta) ∈ its ∧ k = item_title meta
                ∧ src = item_source store meta.
Proof.
  revert formatted sources.
  induction its as [|[doc meta] its IH]; intros formatted sources; [by left|].
  cbn [foldl format_one]. intros [Hin|(d & m & Hm & ? & ?)]%IH.
  - destruct (negb _); [|by left].
    apply elem_of_app in Hin as [?|Hnew]; [by left|].
    apply list_elem_of_singleton in Hnew. simplify_eq. right.
    exists doc, meta. split; [left|done].
  - right. exists d, m. split; [by right|done].
Qed.


(** *** Errors and empty results *)

(** The facade marks an error with the text ["Search error: ..."] and no
    documents; any other result carries no error. *)
Lemma search_error (store : VectorStore.t) (q : string)
    (t p : option string) (yr : option (Z * Z)) (limit : option Z)
    (e : string) :
  SearchResults.error (VectorStore.search store q t p yr limit) = Some e →
  ∃ msg, e = "Search error: " +:+ msg.
Proof.
  unfold VectorStore.search. destruct (collection_query _ _ _ _) as [r|msg].
  - discriminate.
  - intros [= <-]. by exists msg.
Qed.

Lemma handle_results_error (self : t) (store : VectorStore.t)
    (input : ToolInput) (yr : option (Z * Z)) (results : SearchResults.t)
    (msg : string) :
  SearchResults.error results = Some ("Search error: " +:+ msg) →
  handle_results self store input yr results
  = ("Search error: " +:+ msg, self).
Proof. unfold handle_results. by intros ->. Qed.

Lemma handle_results_empty (self : t) (store : VectorStore.t)
    (input : ToolInput) (yr : option (Z * Z)) (results : SearchResults.t) :
  SearchResults.error results = None →
  SearchResults.is_empty results = true →
  handle_results self store input yr results
  = (no_results_message (topic input) (paper_type input) yr, self).
Proof. unfold handle_results. by intros -> ->. Qed.

(** The message names the topic, the paper type and both years. *)
Lemma no_results_message_topic (t : string) (p : option string)
    (yr : option (Z * Z)) :
  str_in t (no_results_message (Some t) p yr) = true.
Proof.
  unfold no_results_message. change (truthy (Some t)) with (truthy t).
  cbn [from_option id]. destruct (truthy t) eqn:Ht.
  - destruct (truthy p), yr as [[y0 y1]|]; cbn [truthy truthy_pair];
      auto 10 with str_in.
  - apply truthy_string_true_not in Ht as ->. apply str_in_nil.
Qed.

Lemma no_results_message_paper_type (t : option string) (p : string)
    (yr : option (Z * Z)) :
  str_in p (no_results_message t (Some p) yr) = true.
Proof.
  unfold no_results_message. change (truthy (Some p)) with (truthy p).
  cbn [from_option id]. destruct (truthy p) eqn:Hp.
  - destruct (truthy t), yr as [[y0 y1]|]; cbn [truthy truthy_pair];
      auto 10 with str_in.
  - apply truthy_string_true_not in Hp as ->. apply str_in_nil.
Qed.

Lemma no_results_message_years (t p : option string) (y0 y1 : Z) :
  str_in (pretty y0) (no_results_message t p (Some (y0, y1))) = true
  ∧ str_in (pretty y1) (no_results_message t p (Some (y0, y1))) = true.
Proof.
  unfold no_results_message. cbn [truthy truthy_pair].
  split; auto 10 with str_in.
Qed.

(** C7: when the facade's result carries an error, the capability returns
    the error text unchanged; when the result is empty without an error,
    it returns a message that contains the topic, the paper type and the
    years that were given; and the output of the one case is never the
    output of the other. *)
Theorem execute_error_and_no_results (self : t) (store : VectorStore.t)
    (input : ToolInput) :
  let results :=
    VectorStore.search store (query input) (topic input) (paper_type input)
      (build_year_range (min_year input) (max_year input)) None in
  (∀ e, SearchResults.error results = Some e →
     (execute self store input).1 = e
     ∧ ∃ detail, e = "Search error: " +:+ detail)
  ∧ (SearchResults.error results = None →
     SearchResults.is_empty results = true →
     let msg := (execute self store input).1 in
     (∃ info, msg = "No relevant medical literature found" +:+ info +:+ ".")
     ∧ (∀ t, topic input = Some t → str_in t msg = true)
     ∧ (∀ p, paper_type input = Some p → str_in p msg = true)
     ∧ (∀ y, min_year input = Some y → str_in (pretty y) msg = true)
     ∧ (∀ y, max_year input = Some y → str_in (pretty y) msg = true))
  ∧ (∀ (self' : t) (store' : VectorStore.t) (input' : ToolInput),
       let results' :=
         VectorStore.search store' (query input') (topic input')
           (paper_type input')
           (build_year_range (min_year input') (max_year input')) None in
       is_Some (SearchResults.error results) →
       SearchResults.error results' = None →
       SearchResults.is_empty results' = true →
       (execute self store input).1 ≠ (execute self' store' input').1).
Proof.
  intros results. split_and!.
  - intros e He. destruct (search_error _ _ _ _ _ _ _ He) as [msg ->].
    unfold execute. fold results.
    rewrite (handle_results_error _ _ _ _ _ msg) by done. eauto.
  - intros Herr Hempty msg. unfold msg, execute. fold results.
    rewrite handle_results_empty by done. cbn [fst]. split_and!.
    + unfold no_results_message. eauto.
    + intros t ->. apply no_results_message_topic.
    + intros p ->. apply no_results_message_paper_type.
    + intros y ->. destruct (max_year input); apply no_results_message_years.
    + intros y ->. destruct (min_year input); apply no_results_message_years.
  - intros self' store' input' results' [e He] Herr' Hempty'.
    destruct (search_error _ _ _ _ _ _ _ He) as [msg ->].
    unfold execute. fold results results'.
    rewrite (handle_results_error _ _ _ _ _ msg) by done.
    rewrite handle_results_empty by done. discriminate.
Qed.

(** C10: an invocation that ends with the error text or with the
    no-results message leaves the recorded sources as they were. *)
Theorem execute_failure_keeps_sources (self : t) (store : VectorStore.t)
    (input : ToolInput) :
  let results :=
    VectorStore.search store (query input) (topic input) (paper_type input)
      (build_year_range (min_year input) (max_year input)) None in
  truthy (SearchResults.error results) = true
  ∨ SearchResults.is_empty results = true →
  last_sources (execute self store input).2 = last_sources self
  ∧ (execute self store input).2 = self.
Proof.
  intros results Hfail. unfold execute. fold results. unfold handle_results.
  destruct (truthy (SearchResults.error results)); [done|].
  destruct Hfail as [ ? | -> ]; done.
Qed.

(** Only the success path is left: there the result is formatted. *)
Lemma execute_success (self : t) (store : VectorStore.t) (input : ToolInput) :
  let results :=
    VectorStore.search store (query input) (topic input) (paper_type input)
      (build_year_range (min_year input) (max_year input)) None in
  truthy (SearchResults.error results) = false →
  SearchResults.is_empty results = false →
  execute self store input = _format_results self store results.
Proof.
  intros results Herr Hempty. unfold execute. fold results.
  unfold handle_results. by rewrite Herr, Hempty.
Qed.
End search_capability.

(** ** Chunker *)

Lemma join_singleton (sep s : string) : join sep [s] = s.
Proof. reflexivity. Qed.

Lemma join_cons (sep s s' : string) (l : list string) :
  join sep (s :: s' :: l) = s +:+ sep +:+ join sep (s' :: l).
Proof. reflexivity. Qed.

Lemma join_snoc (sep s : string) (l : list string) :
  l ≠ [] → join sep (l ++ [s]) = join sep l +:+ sep +:+ s.
Proof.
  induction l as [|x [|y l] IH]; intros Hl; [done|done|].
  change ((x :: y :: l) ++ [s]) with (x :: y :: (l ++ [s])).
  rewrite !join_cons. change (y :: l ++ [s]) with ((y :: l) ++ [s]).
  rewrite IH by done. by rewrite !append_assoc.
Qed.

Lemma len_join_snoc (s : string) (l : list string) :
  l ≠ [] → len (join " " (l ++ [s])) = len (join " " l) + 1 + len s.
Proof.
  intros Hl. rewrite join_snoc by done. rewrite !len_append.
  change (len " ") with 1. lia.
Qed.

Lemma join_nonempty (sep s : string) (l : list string) :
  s ≠ "" → join sep (s :: l) ≠ "".
Proof.
  destruct s as [|c s]; [done|]. intros _.
  destruct l; [done|]. rewrite join_cons, append_cons. done.
Qed.

Lemma truthy_list_true {A} (l : list A) : truthy l = true ↔ l ≠ [].
Proof. by destruct l. Qed.

Section chunker.
Context {runtime : PythonRuntime}.
Import DocumentProcessor.

(** *** The inner loops *)

(** The packing loop returns the chunk so far extended by a prefix of the
    remaining sentences, with [current_size] the length of the chunk's
    text; past the first sentence that text stays within [chunk_size]. *)
Lemma build_chunk_spec (cs : Z) (rest cur : list string) (size : Z) :
  size = len (join " " cur) →
  (length cur ≤ 1)%nat ∨ size ≤ cs →
  ∃ n : nat,
    (n ≤ length rest)%nat
    ∧ build_chunk cs rest cur size
      = (cur ++ take n rest, len (join " " (cur ++ take n rest)))
    ∧ ((length (cur ++ take n rest) ≤ 1)%nat
       ∨ len (join " " (cur ++ take n rest)) ≤ cs)
    ∧ (cur = [] → rest ≠ [] → (1 ≤ n)%nat).
Proof.
  revert cur size. induction rest as [|s rest IH]; intros cur size Hsize Hfit.
  { exists 0%nat. rewrite take_0, app_nil_r. simpl. subst size. done. }
  cbn [build_chunk]. destruct cur as [|c cur].
  - cbn [truthy truthy_list andb]. rewrite andb_false_r.
    destruct (IH [s] (size + (len s + 0))) as (n & Hn & Hrun & Hcs & _).
    { subst size. rewrite join_singleton. change (len (join " " [])) with 0. lia. }
    { left. simpl. lia. }
    exists (S n). split_and!; [simpl; lia|done|done|lia].
  - cbn [truthy truthy_list]. rewrite andb_true_r.
    destruct (size + (len s + 1) >? cs) eqn:Hcmp.
    + exists 0%nat. rewrite take_0, app_nil_r. subst size.
      split_and!; [lia|done|done|done].
    + destruct (IH ((c :: cur) ++ [s]) (size + (len s + 1)))
        as (n & Hn & Hrun & Hcs & _).
      { rewrite len_join_snoc by done. lia. }
      { right. lia. }
      exists (S n). rewrite <- !app_assoc in *.
      split_and!; [simpl; lia|done|done|done].
Qed.

Lemma count_overlap_bounds (co : Z) (rev_chunk : list string) (at_end : bool)
    (size count : Z) :
  count ≤ count_overlap co rev_chunk at_end size count ≤ count + len rev_chunk.
Proof.
  revert at_end size count.
  induction rev_chunk as [|s l IH]; intros at_end size count.
  { unfold len, len_list. simpl. lia. }
  cbn [count_overlap].
  assert (len (s :: l) = len l + 1) as -> by (unfold len, len_list; simpl; lia).
  pose proof (len_nonneg s). destruct (_ <=? _).
  - specialize (IH false (size + (len s + (if at_end then 0 else 1)))
                  (count + 1)).
    lia.
  - assert (0 ≤ len l) by (unfold len, len_list; lia). lia.
Qed.

(** *** One iteration *)

(** At a start index inside the list, an iteration emits one chunk: the
    text of the run of [n ≥ 1] sentences from [i] on. The next start lies
    after [i] and not beyond the end of the run. *)
Lemma loop_body_spec (self : t) (sentences chunks : list string) (i : Z) :
  0 ≤ i < len sentences →
  ∃ n : nat,
    (1 ≤ n ∧ Z.to_nat i + n ≤ length sentences)%nat
    ∧ (loop_body self sentences (i, chunks)).2
      = chunks ++ [join " " (take n (drop (Z.to_nat i) sentences))]
    ∧ i < (loop_body self sentences (i, chunks)).1 ≤ i + Z.of_nat n
    ∧ (n = 1%nat
       ∨ len (join " " (take n (drop (Z.to_nat i) sentences)))
         ≤ chunk_size self).
Proof.
  intros Hi. unfold len, len_list in Hi.
  set (rest := drop (Z.to_nat i) sentences).
  assert (length rest = (length sentences - Z.to_nat i)%nat) as Hrest
    by apply length_drop.
  destruct (build_chunk_spec (chunk_size self) rest [] 0)
    as (n & Hn & Hrun & Hcs & Hpos); [done|left; simpl; lia|].
  assert (1 ≤ n)%nat as Hn1.
  { apply Hpos; [done|]. intros Hnil. rewrite Hnil in Hrest. simpl in Hrest. lia. }
  cbn [app] in Hrun, Hcs.
  assert (length (take n rest) = n) as Hlen by (rewrite length_take; lia).
  exists n. unfold loop_body. fold rest. rewrite Hrun.
  assert (truthy (take n rest) = true) as ->.
  { apply truthy_list_true. intros Hnil. rewrite Hnil in Hlen. simpl in Hlen. lia. }
  assert (len (take n rest) = Z.of_nat n) as Hlen'
    by (unfold len, len_list; lia).
  split_and!; [done|lia| | | |].
  - by destruct (_ >? _).
  - destruct (_ >? _); cbn [fst]; lia.
  - destruct (_ >? _); cbn [fst]; [|lia].
    pose proof (count_overlap_bounds (chunk_overlap self)
                  (rev (take n rest)) true 0 0) as Hov.
    assert (len (rev (take n rest)) = Z.of_nat n) as Hrev
      by (unfold len, len_list; rewrite length_rev; lia).
    lia.
  - destruct Hcs as [Hone|Hfit]; [left; lia|by right].
Qed.

(** The start index strictly increases in every iteration, wherever the
    iteration starts and whatever the sizes are. *)
Lemma loop_body_progress (self : t) (sentences : list string)
    (st : Z * list string) :
  st.1 < (loop_body self sentences st).1.
Proof.
  destruct st as [i chunks]. unfold loop_body.
  destruct (build_chunk _ _ _ _) as [current_chunk size].
  destruct (truthy current_chunk) eqn:Hchunk; cbn [fst]; [|lia].
  assert (1 ≤ len current_chunk).
  { destruct current_chunk; [done|]. unfold len, len_list. simpl. lia. }
  destruct (_ >? _); cbn [fst]; lia.
Qed.

(** *** The loop *)

(** The loop ends within as many iterations as there are sentences from
    the start index on. *)
Lemma while_loop_iterations (self : t) (sentences : list string) (fuel : nat)
    (st : Z * list string) :
  len sentences - st.1 ≤ Z.of_nat fuel →
  ∃ n : nat,
    (n ≤ fuel)%nat
    ∧ while_loop fuel self sentences st
      = Some (Nat.iter n (loop_body self sentences) st)
    ∧ len sentences ≤ (Nat.iter n (loop_body self sentences) st).1
    ∧ ∀ m : nat, (m < n)%nat →
        (Nat.iter m (loop_body self sentences) st).1 < len sentences.
Proof.
  revert st. induction fuel as [|fuel IH]; intros st Hfuel.
  - exists 0%nat. cbn [while_loop Nat.iter nat_rect].
    destruct (st.1 <? len sentences) eqn:Hlt; [lia|].
    split_and!; [done|done|lia|lia].
  - cbn [while_loop]. destruct (st.1 <? len sentences) eqn:Hlt.
    + pose proof (loop_body_progress self sentences st) as Hprog.
      destruct (IH (loop_body self sentences st)) as (n & Hn & Hrun & Hend & Hgo);
        [lia|].
      exists (S n). rewrite Nat.iter_succ_r. split_and!; [lia|done|done|].
      intros [|m] Hm; [cbn; lia|]. rewrite Nat.iter_succ_r. apply Hgo. lia.
    + exists 0%nat. cbn [Nat.iter nat_rect]. split_and!; [lia|done|lia|lia].
Qed.

(** What the loop appends: the texts of runs of sentences that together
    cover every sentence from the start index on. *)
Lemma while_loop_groups (self : t) (sentences : list string) (fuel : nat)
    (i : Z) (chunks : list string) (st' : Z * list string) :
  0 ≤ i →
  while_loop fuel self sentences (i, chunks) = Some st' →
  ∃ groups : list (list string),
    st'.2 = chunks ++ (join " " <$> groups)
    ∧ Forall (λ g, Spec.is_run sentences g
                   ∧ (length g = 1%nat ∨ len (join " " g) ≤ chunk_size self))
        groups
    ∧ ∀ (j : nat) (s : string),
        (Z.to_nat i ≤ j)%nat → sentences !! j = Some s →
        ∃ g, g ∈ groups ∧ s ∈ g.
Proof.
  revert i chunks. induction fuel as [|fuel IH]; intros i chunks Hi;
    cbn [while_loop fst]; destruct (i <? len sentences) eqn:Hlt;
    try discriminate.
  1, 3: intros [= <-]; exists []; cbn [fmap list_fmap snd];
    rewrite app_nil_r; split_and!; [done|constructor|];
    intros j s Hj Hs%lookup_lt_Some; unfold len, len_list in Hlt; lia.
  destruct (loop_body_spec self sentences chunks i)
    as (n & [Hn1 Hn] & Hchunks & Hnext & Hfit); [lia|].
  destruct (loop_body self sentences (i, chunks)) as [i' chunks'].
  cbn [fst snd] in *. subst chunks'. intros Hloop.
  destruct (IH i' _ ltac:(lia) Hloop) as (groups & Hout & Hgroups & Hcover).
  set (g := take n (drop (Z.to_nat i) sentences)) in *.
  assert (length g = n) as Hlen by (unfold g; rewrite length_take, length_drop; lia).
  exists (g :: groups). split_and!.
  - rewrite Hout, <- app_assoc. done.
  - constructor; [|done]. split.
    + exists (Z.to_nat i), n. done.
    + destruct Hfit as [->|?]; [by left|by right].
  - intros j s Hj Hs. destruct (decide (j < Z.to_nat i + n)%nat) as [Hin|Hout'].
    + exists g. split; [left|].
      apply list_elem_of_lookup. exists (j - Z.to_nat i)%nat.
      unfold g. rewrite lookup_take_lt by lia. rewrite lookup_drop.
      by replace (Z.to_nat i + (j - Z.to_nat i))%nat with j by lia.
    + destruct (Hcover j s ltac:(lia) Hs) as (g' & Hg' & Hsg').
      exists g'. split; [by right|done].
Qed.

(** Every cleaned sentence is non-empty. *)
Lemma sentences_of_nonempty (text s : string) :
  s ∈ sentences_of text → s ≠ "".
Proof.
  unfold sentences_of. intros (piece & -> & Hpiece)%list_elem_of_fmap.
  apply list_elem_of_In, filter_In in Hpiece as [_ Htruthy].
  by apply truthy_string_true.
Qed.

(** One iteration per sentence is enough fuel: the loop of [chunk_text]
    returns, after [n] iterations. *)
Lemma while_loop_returns (self : t) (text : string) :
  let sentences := sentences_of text in
  ∃ n : nat,
    (n ≤ length sentences)%nat
    ∧ while_loop (length sentences) self sentences (0, [])
      = Some (after_iterations self sentences n)
    ∧ len sentences ≤ (after_iterations self sentences n).1
    ∧ (∀ m : nat, (m < n)%nat →
         (after_iterations self sentences m).1 < len sentences)
    ∧ chunk_text self text = (after_iterations self sentences n).2.
Proof.
  intros sentences.
  destruct (while_loop_iterations self sentences (length sentences) (0, []))
    as (n & Hn & Hrun & Hend & Hgo).
  { unfold len, len_list. cbn [fst]. lia. }
  exists n. unfold after_iterations. split_and!; [done..|].
  unfold chunk_text. fold sentences. rewrite Hrun.
  by destruct (Nat.iter n _ _).
Qed.

(** C4: the start index strictly increases in every iteration, whatever
    [chunk_size] and [chunk_overlap] are, and the loop ends after [n]
    iterations for some [n] not above the number of sentences. *)
Theorem chunk_loop_terminates (self : t) (text : string) :
  let sentences := sentences_of text in
  (∀ st, st.1 < (loop_body self sentences st).1)
  ∧ ∃ n : nat,
      (n ≤ length sentences)%nat
      ∧ while_loop (length sentences) self sentences (0, [])
        = Some (after_iterations self sentences n)
      ∧ len sentences ≤ (after_iterations self sentences n).1
      ∧ (∀ m : nat, (m < n)%nat →
           (after_iterations self sentences m).1 < len sentences)
      ∧ chunk_text self text = (after_iterations self sentences n).2.
Proof.
  intros sentences. split; [apply loop_body_progress|].
  apply while_loop_returns.
Qed.

End chunker.

(** ** Document parser: chunk construction *)

Section parser.
Context {runtime : PythonRuntime}.
Import DocumentProcessor.

(** The chunks of one section go behind the chunks so far, numbered on
    from their count. *)
Lemma section_chunks_spec (paper : Paper.t) (label : string)
    (pieces : list string) (acc : list PaperChunk.t) :
  section_chunks paper label pieces (acc, Z.of_nat (length acc))
  = let acc' :=
      acc ++ imap (λ k piece,
                     make_chunk paper label piece (Z.of_nat (length acc + k)))
               pieces in
    (acc', Z.of_nat (length acc')).
Proof.
  unfold section_chunks. revert acc.
  induction pieces as [|piece pieces IH]; intros acc; cbn [foldl imap].
  { by rewrite app_nil_r. }
  replace (Z.of_nat (length acc) + 1)
    with (Z.of_nat (length (acc ++ [make_chunk paper label piece
                                      (Z.of_nat (length acc))])))
    by (rewrite length_app; simpl; lia).
  rewrite IH. cbn zeta. rewrite <- !app_assoc. cbn [app].
  rewrite Nat.add_0_r.
  assert (imap (λ k piece0, make_chunk paper label piece0
                  (Z.of_nat (length (acc ++ [make_chunk paper label piece
                                               (Z.of_nat (length acc))]) + k)))
            pieces
          = imap ((λ k piece0, make_chunk paper label piece0
                     (Z.of_nat (length acc + k))) ∘ S) pieces) as ->; [|done].
  apply imap_ext. intros k piece' _. cbn [compose]. rewrite length_app.
  simpl. do 2 f_equal. lia.
Qed.

(** The same for all sections, one after the other. *)
Lemma sections_fold_spec (self : t) (paper : Paper.t)
    (sections : list (string * string)) (acc : list PaperChunk.t) :
  foldl (λ acc '(section_title, section_content),
           section_chunks paper section_title
             (chunk_text self section_content) acc)
    (acc, Z.of_nat (length acc)) sections
  = let acc' :=
      acc ++ imap (λ k '(label, piece),
                     make_chunk paper label piece (Z.of_nat (length acc + k)))
               (flat_map (λ '(label, content),
                            pair label <$> chunk_text self content)
                  sections) in
    (acc', Z.of_nat (length acc')).
Proof.
  revert acc. induction sections as [|[label content] sections IH];
    intros acc; cbn [foldl flat_map].
  { cbn. by rewrite app_nil_r. }
  rewrite section_chunks_spec. cbn zeta. rewrite IH. cbn zeta.
  rewrite imap_app, <- !app_assoc, imap_fmap.
  match goal with
  | |- (?A, _) = (?B, _) => assert (A = B) as Heq; [|by rewrite Heq]
  end.
  do 2 f_equal. apply imap_ext. intros k [label' piece] _. cbn [compose].
  rewrite length_app, length_imap, length_fmap. do 2 f_equal. lia.
Qed.

Lemma _extract_abstract_nonempty (root : ET.Element) (a : string) :
  _extract_abstract root = Some a → truthy a = true.
Proof.
  unfold _extract_abstract. destruct (ET.find_desc _ _); [|done].
  destruct (truthy _) eqn:Ha; [|done]. by intros [= <-].
Qed.

(** The chunk list is the labelled pieces, numbered from 0. *)
Lemma build_paper_chunks_spec (self : t) (paper : Paper.t)
    (abstract : option string) (sections : list (string * string)) :
  abstract ≠ Some "" →
  build_paper_chunks self paper abstract sections
  = Spec.chunks_of paper
      (Spec.labelled_pieces abstract
         ((λ '(label, content), (label, chunk_text self content))
            <$> sections)).
Proof.
  intros Hne. unfold build_paper_chunks, Spec.chunks_of, Spec.labelled_pieces.
  assert (flat_map (λ '(label, pieces), pair label <$> pieces)
            ((λ '(label, content), (label, chunk_text self content))
               <$> sections)
          = flat_map (λ '(label, content),
                        pair label <$> chunk_text self content) sections)
    as ->.
  { induction sections as [|[label content] sections IH]; [done|].
    cbn [fmap list_fmap flat_map]. by rewrite <- IH. }
  unfold abstract_chunks. destruct abstract as [a|].
  - assert (truthy (Some a) = true) as ->.
    { apply truthy_string_true. by intros ->. }
    cbn [app default from_option id].
    change (0 + 1) with (Z.of_nat (length [make_chunk paper "Abstract" a 0])).
    rewrite sections_fold_spec. cbn [fst app imap length]. f_equal.
  - cbn [truthy truthy_option app].
    change 0 with (Z.of_nat (length (@nil PaperChunk.t))) at 1.
    rewrite sections_fold_spec. cbn [fst app length]. by apply imap_ext.
Qed.

Lemma chunks_of_index (paper : Paper.t) (pieces : list (string * string))
    (k : nat) (c : PaperChunk.t) :
  Spec.chunks_of paper pieces !! k = Some c →
  PaperChunk.chunk_index c = Z.of_nat k.
Proof.
  unfold Spec.chunks_of. rewrite list_lookup_imap.
  destruct (pieces !! k) as [[label piece]|]; [|done]. by intros [= <-].
Qed.

Lemma body_sections_fold (secs : list ET.Element)
    (acc : list (string * string)) :
  foldl (λ sections sec,
           let title := section_label sec in
           match section_content sec with
           | Some content => sections ++ [(title, content)]
           | None => sections
           end) acc secs
  = acc ++ omap (λ sec, pair (section_label sec) <$> section_content sec) secs.
Proof.
  revert acc.
  induction secs as [|sec secs IH]; intros acc; cbn [foldl omap list_omap].
  { by rewrite app_nil_r. }
  rewrite IH. destruct (section_content sec); cbn [fmap option_fmap option_map];
    [|done].
  by rewrite <- app_assoc.
Qed.

(** The sections are those of the [sec] elements below [body] that have
    content, in document order, each under its label. *)
Lemma _extract_body_sections_spec (root body : ET.Element) :
  ET.find_desc "body" root = Some body →
  _extract_body_sections root
  = omap (λ sec, pair (section_label sec) <$> section_content sec)
      (ET.findall_desc "sec" body).
Proof.
  intros Hbody. unfold _extract_body_sections. rewrite Hbody.
  apply body_sections_fold.
Qed.

Lemma section_label_fallback (sec : ET.Element) :
  ET.find_child "title" sec = None → section_label sec = "Untitled Section".
Proof. unfold section_label. by intros ->. Qed.

(** C5: for a document that is parsed into chunks, the chunk at position
    [k] of the list has position index [k]; the list is the abstract, if
    one was extracted, as one chunk labelled Abstract at index 0, followed
    by the chunker's pieces of the body sections in document order, each
    under its section's label; and a section without a title element is
    labelled Untitled Section. *)
Theorem process_medical_paper_chunks (self self' : t) (file : XmlFile)
    (metadata_dir : MetadataDir) (paper : Paper.t)
    (paper_chunks : list PaperChunk.t) :
  process_medical_paper self file metadata_dir
  = (Some (paper, paper_chunks), self') →
  ∃ root body : ET.Element,
    getroot file = Some root ∧ ET.find_desc "body" root = Some body
    ∧ (∀ k c, paper_chunks !! k = Some c →
         PaperChunk.chunk_index c = Z.of_nat k)
    ∧ paper_chunks
      = Spec.chunks_of paper
          (Spec.labelled_pieces (_extract_abstract root)
             ((λ '(label, content), (label, chunk_text self' content))
                <$> _extract_body_sections root))
    ∧ (∀ a, _extract_abstract root = Some a →
         ∃ body_chunks,
           paper_chunks = make_chunk paper "Abstract" a 0 :: body_chunks
           ∧ PaperChunk.chunk_index (make_chunk paper "Abstract" a 0) = 0
           ∧ PaperChunk.section_title (make_chunk paper "Abstract" a 0)
             = Some "Abstract")
    ∧ _extract_body_sections root
      = omap (λ sec, pair (section_label sec) <$> section_content sec)
          (ET.findall_desc "sec" body)
    ∧ (∀ sec, ET.find_child "title" sec = None →
         section_label sec = "Untitled Section").
Proof.
  unfold process_medical_paper. destruct (getroot file) as [root|]; [|done].
  destruct (_check_if_abstract_only root) eqn:Hcheck; [done|].
  destruct (_load_topic_mapping self metadata_dir) as [topic_mapping self1].
  intros [= <- <- <-].
  assert (∃ body, ET.find_desc "body" root = Some body) as [body Hbody].
  { unfold _check_if_abstract_only in Hcheck. destruct (str_in _ _); [done|].
    destruct (ET.find_desc "body" root); [eauto|done]. }
  set (paper := Paper.mk _ _ _ _ _ _ _ _ _).
  assert (_extract_abstract root ≠ Some "") as Hne.
  { intros Ha. by apply _extract_abstract_nonempty in Ha. }
  pose proof (build_paper_chunks_spec self1 paper _
                (_extract_body_sections root) Hne) as Hchunks.
  exists root, body. split_and!; [done|done| |done| | |].
  - rewrite Hchunks. apply chunks_of_index.
  - intros a Ha. rewrite Hchunks, Ha. unfold Spec.chunks_of, Spec.labelled_pieces.
    cbn [app imap]. eauto.
  - by apply _extract_body_sections_spec.
  - apply section_label_fallback.
Qed.
End parser.

(** ** Ingestion: duplicates are skipped *)

Section ingestion.
Context {runtime : PythonRuntime} {backend : SimilarityBackend}.
Import RAGSystem.

(** The title of a parsed paper, and whether the file is parsed at all,
    do not depend on the state of the processor. *)
Lemma process_medical_paper_title (self : DocumentProcessor.t)
    (file : DocumentProcessor.XmlFile)
    (metadata_dir : DocumentProcessor.MetadataDir) :
  (Paper.title ∘ fst)
    <$> (DocumentProcessor.process_medical_paper self file metadata_dir).1
  = DocumentProcessor.file_title file.
Proof.
  unfold DocumentProcessor.process_medical_paper, DocumentProcessor.file_title.
  destruct (DocumentProcessor.getroot file) as [root|]; [|done].
  destruct (DocumentProcessor._check_if_abstract_only root); [done|].
  by destruct (DocumentProcessor._load_topic_mapping self metadata_dir).
Qed.

Lemma add_paper_catalog (store : VectorStore.t) (paper : Paper.t)
    (chunks : list PaperChunk.t) :
  ∃ e,
    entry_id e = Paper.title paper
    ∧ VectorStore.paper_catalog
        (VectorStore.add_paper_content
           (VectorStore.add_paper_metadata store paper) chunks)
      = VectorStore.paper_catalog store ++ [e].
Proof.
  eexists. split; [|unfold VectorStore.add_paper_content;
                    destruct (negb _); reflexivity].
  reflexivity.
Qed.

(** What one entry does to the loop state: nothing to the store, the
    known titles and the totals when the entry is passed over or its title
    is known; otherwise one catalog entry under the new title. *)
Lemma ingest_file_spec (metadata_dir : DocumentProcessor.MetadataDir)
    (st : Ingest) (entry : DirEntry) :
  let st' := ingest_file metadata_dir st entry in
  match entry_title entry with
  | Some title =>
      if decide (title ∈ existing_paper_titles st) then
        vector_store (system st') = vector_store (system st)
        ∧ existing_paper_titles st' = existing_paper_titles st
        ∧ total_papers st' = total_papers st
        ∧ total_chunks st' = total_chunks st
      else
        (∃ e, entry_id e = title
              ∧ VectorStore.paper_catalog (vector_store (system st'))
                = VectorStore.paper_catalog (vector_store (system st)) ++ [e])
        ∧ existing_paper_titles st' = existing_paper_titles st ∪ {[title]}
  | None =>
      vector_store (system st') = vector_store (system st)
      ∧ existing_paper_titles st' = existing_paper_titles st
      ∧ total_papers st' = total_papers st
      ∧ total_chunks st' = total_chunks st
  end.
Proof.
  unfold ingest_file, entry_title.
  destruct (isfile entry && endswith _ _); [|done].
  pose proof (process_medical_paper_title
                (document_processor (system st))
                (DocumentProcessor.Build_XmlFile (file_name entry) (parsed entry))
                metadata_dir) as Htitle.
  destruct (DocumentProcessor.process_medical_paper _ _ _)
    as [[[paper paper_chunks]|] processor]; cbn in Htitle; rewrite <- Htitle.
  - case_bool_decide as Hnew.
    + rewrite decide_False by done. cbn. split; [|done].
      apply add_paper_catalog.
    + rewrite decide_True by (by destruct (decide (Paper.title paper
                                 ∈ existing_paper_titles st))). done.
  - done.
Qed.

(** The loop over a folder only appends catalog entries, under titles
    that were not known when it started; it keeps the known titles in step
    with the catalog; and when it ends it knows the title of every paper
    in the folder. *)
Lemma ingest_loop_spec (metadata_dir : DocumentProcessor.MetadataDir)
    (entries : list DirEntry) (st : Ingest) :
  let st' := foldl (ingest_file metadata_dir) st entries in
  (∃ added,
     VectorStore.paper_catalog (vector_store (system st'))
     = VectorStore.paper_catalog (vector_store (system st)) ++ added
     ∧ ∀ e, e ∈ added → entry_id e ∉ existing_paper_titles st)
  ∧ existing_paper_titles st ⊆ existing_paper_titles st'
  ∧ (titles_in_step st → titles_in_step st')
  ∧ (∀ entry title, entry ∈ entries → entry_title entry = Some title →
       title ∈ existing_paper_titles st').
Proof.
  revert st. induction entries as [|entry entries IH]; intros st; cbn [foldl].
  { split_and!; [|done|done|by intros ?? ?%elem_of_nil].
    exists []. split; [by rewrite app_nil_r|by intros ? ?%elem_of_nil]. }
  pose proof (ingest_file_spec metadata_dir st entry) as Hstep.
  cbn zeta in Hstep.
  destruct (IH (ingest_file metadata_dir st entry))
    as ((added & Hcat & Hadded) & Hsub & Hinv & Hknown).
  set (st1 := ingest_file metadata_dir st entry) in *.
  assert (existing_paper_titles st ⊆ existing_paper_titles st1
          ∧ (∃ new, VectorStore.paper_catalog (vector_store (system st1))
                    = VectorStore.paper_catalog (vector_store (system st)) ++ new
                    ∧ ∀ e, e ∈ new → entry_id e ∉ existing_paper_titles st)
          ∧ (titles_in_step st → titles_in_step st1)
          ∧ ∀ title, entry_title entry = Some title →
              title ∈ existing_paper_titles st1)
    as (Hsub1 & (new & Hcat1 & Hnew) & Hinv1 & Hknown1).
  { destruct (entry_title entry) as [title|].
    - destruct (decide (title ∈ existing_paper_titles st)) as [Hin|Hnotin].
      + destruct Hstep as (Hstore & Hex & _). split_and!.
        * by rewrite Hex.
        * exists []. rewrite Hstore, app_nil_r. split; [done|].
          by intros ? ?%elem_of_nil.
        * unfold titles_in_step. by rewrite Hstore, Hex.
        * intros ? [= <-]. by rewrite Hex.
      + destruct Hstep as ((e & Hid & Hcat1) & Hex). split_and!.
        * rewrite Hex. set_solver.
        * exists [e]. split; [done|].
          intros e' ->%list_elem_of_singleton. by rewrite Hid.
        * unfold titles_in_step, VectorStore.get_existing_paper_titles.
          intros Hst. rewrite Hex, Hcat1, fmap_app, list_to_set_app_L, Hst.
          cbn. rewrite Hid. set_solver.
        * intros ? [= <-]. rewrite Hex. set_solver.
    - destruct Hstep as (Hstore & Hex & _). split_and!.
      + by rewrite Hex.
      + exists []. rewrite Hstore, app_nil_r. split; [done|].
        by intros ? ?%elem_of_nil.
      + unfold titles_in_step. by rewrite Hstore, Hex.
      + done. }
  split_and!.
  - exists (new ++ added). rewrite Hcat, Hcat1, app_assoc. split; [done|].
    intros e [?|?]%elem_of_app; [by apply Hnew|].
    intros Hin. by apply (Hadded e), Hsub1.
  - set_solver.
  - auto.
  - intros entry' title [->|Hin]%elem_of_cons Htitle.
    + by apply Hsub, Hknown1.
    + by eapply Hknown.
Qed.

(** A folder in which every paper has a known title changes neither the
    store nor the totals. *)
Lemma ingest_loop_known (metadata_dir : DocumentProcessor.MetadataDir)
    (entries : list DirEntry) (st : Ingest) :
  (∀ entry title, entry ∈ entries → entry_title entry = Some title →
     title ∈ existing_paper_titles st) →
  let st' := foldl (ingest_file metadata_dir) st entries in
  vector_store (system st') = vector_store (system st)
  ∧ total_papers st' = total_papers st
  ∧ total_chunks st' = total_chunks st.
Proof.
  revert st. induction entries as [|entry entries IH]; intros st Hknown;
    cbn [foldl]; [done|].
  pose proof (ingest_file_spec metadata_dir st entry) as Hstep.
  cbn zeta in Hstep.
  assert (vector_store (system (ingest_file metadata_dir st entry))
          = vector_store (system st)
          ∧ existing_paper_titles (ingest_file metadata_dir st entry)
            = existing_paper_titles st
          ∧ total_papers (ingest_file metadata_dir st entry) = total_papers st
          ∧ total_chunks (ingest_file metadata_dir st entry) = total_chunks st)
    as (Hstore & Hex & Hpapers & Hchunks).
  { destruct (entry_title entry) as [title|] eqn:Htitle; [|done].
    rewrite decide_True in Hstep; [done|].
    apply (Hknown entry); [left|done]. }
  destruct (IH (ingest_file metadata_dir st entry)) as (Hs & Hp & Hc).
  { intros entry' title Hin Ht. rewrite Hex. apply (Hknown entry'); [by right|done]. }
  cbn zeta in *. by rewrite Hs, Hp, Hc.
Qed.

End ingestion.

(** ** Answer orchestrator *)

Section orchestrator.
Context {runtime : PythonRuntime} {backend : SimilarityBackend}
        {endpoint : ModelEndpoint}.
Import AIGenerator.

Lemma model_calls_app (evs evs' : list Event) :
  model_calls (evs ++ evs') = model_calls evs ++ model_calls evs'.
Proof. apply omap_app. Qed.

Lemma tool_executions_app (evs evs' : list Event) :
  tool_executions (evs ++ evs') = tool_executions evs ++ tool_executions evs'.
Proof. apply omap_app. Qed.

(** The loop over the content blocks executes the requested invocations in
    order, one execution each, and pairs every result with its id. *)
Lemma execute_tool_calls_spec (store : VectorStore.t)
    (blocks : list Api.ContentBlock) (acc : list Api.ToolResult)
    (tm : ToolManager.t) (evs : list Event) :
  ∃ (results : list Api.ToolResult) (tm' : ToolManager.t),
    execute_tool_calls store blocks acc (Build_State (Some tm) evs)
    = (Return (acc ++ results),
       Build_State (Some tm')
         (evs ++ ((λ '(_, name, input), ToolExecution name input)
                    <$> requested (Api.Build_Response "" blocks))))
    ∧ Api.tool_use_id <$> results
      = (λ '(id, _, _), id) <$> requested (Api.Build_Response "" blocks).
Proof.
  revert acc tm evs. unfold requested. cbn [Api.content].
  induction blocks as [|block blocks IH]; intros acc tm evs.
  { exists [], tm. cbn. by rewrite !app_nil_r. }
  destruct block as [text|id name input|type];
    cbn [execute_tool_calls omap list_omap]; [apply IH| |apply IH].
  unfold bind, execute_tool at 1. cbn [tool_manager events].
  destruct (ToolManager.execute_tool tm store name input) as [out tm1].
  destruct (IH (acc ++ [Api.Build_ToolResult id out]) tm1
              (evs ++ [ToolExecution name input]))
    as (results & tm' & -> & Hids).
  exists (Api.Build_ToolResult id out :: results), tm'.
  rewrite <- !app_assoc. cbn [fmap list_fmap app Api.tool_use_id].
  by rewrite Hids.
Qed.

(** The final pass calls the model once or twice, with the same
    parameters, and touches nothing else. *)
Lemma final_call_spec (final_params : Api.Params) (st : State) :
  ∃ r, (final_call 1 (seq 0 2) final_params st
        = (r, Build_State (tool_manager st)
                (events st ++ [ModelCall final_params]))
        ∨ final_call 1 (seq 0 2) final_params st
          = (r, Build_State (tool_manager st)
                  (events st ++ [ModelCall final_params;
                                 ModelCall final_params]))).
Proof.
  cbn [seq final_call]. unfold bind, try_create. cbn [tool_manager events].
  assert (∀ evs : list Event,
            (evs ++ [ModelCall final_params]) ++ [ModelCall final_params]
            = evs ++ [ModelCall final_params; ModelCall final_params])
    as Happ by (intros; by rewrite <- app_assoc).
  destruct (messages_create _ _) as [response|e]; cbn [Nat.ltb Nat.leb].
  - destruct (Api.content response) as [|[text|id name input|type] rest];
      [|by eauto|..].
    all: destruct (messages_create _ _) as [response'|e'];
      [destruct (Api.content response') as [|[] ?]|];
      cbn [ret raise tool_manager events]; rewrite Happ; eauto.
  - destruct (messages_create _ _) as [response'|e'];
      [destruct (Api.content response') as [|[] ?]|];
      cbn [ret raise tool_manager events]; rewrite Happ; eauto.
Qed.

End orchestrator.

(** ** The theorems at work on concrete inputs *)

(** The boundary pattern keeps [Dr.], [e.g.] and [U.S.A.] inside their
    sentences and does not cut before a lower-case word. *)
Example sentences_of_abbreviations :
  DocumentProcessor.sentences_of (runtime:=ascii_runtime)
    "  Hello world.  This is Dr. Smith. He said e.g. This? Yes! ok. Fine U.S.A. Today."
  = ["Hello world."; "This is Dr. Smith."; "He said e.g. This?"; "Yes! ok.";
     "Fine U.S.A. Today."].
Proof. vm_compute. reflexivity. Qed.

(** Six sentences packed into chunks of at most 20 characters with an
    overlap of 8: the long sentence stays whole, and the last short one of a
    chunk opens the next. *)
Example chunk_text_overlap :
  DocumentProcessor.chunk_text (runtime:=ascii_runtime)
    (DocumentProcessor.__init__ 20 8)
    "Aa bb. Cc dd. Ee ff. Gg hh. Ii jj kk ll mm nn oo pp qq rr. Ss."
  = ["Aa bb. Cc dd. Ee ff."; "Ee ff. Gg hh."; "Gg hh.";
     "Ii jj kk ll mm nn oo pp qq rr."; "Ss."].
Proof. vm_compute. reflexivity. Qed.

(** An overlap above the chunk size: the start still moves on, one sentence
    at a time. *)
Example chunk_text_large_overlap :
  DocumentProcessor.chunk_text (runtime:=ascii_runtime)
    (DocumentProcessor.__init__ 20 100)
    "Aa bb. Cc dd. Ee ff. Gg hh. Ii jj kk ll mm nn oo pp qq rr. Ss."
  = ["Aa bb. Cc dd. Ee ff."; "Cc dd. Ee ff. Gg hh."; "Ee ff. Gg hh.";
     "Gg hh."; "Ii jj kk ll mm nn oo pp qq rr."; "Ss."].
Proof. vm_compute. reflexivity. Qed.

(** Ingesting a folder twice: one paper after the first time, and still one
    after the second. *)
Example ingest_twice :
  let system :=
    RAGSystem.mk sample_processor empty_store in
  let folder :=
    Some [RAGSystem.Build_DirEntry "PMC1.xml" true (Some sample_article);
          RAGSystem.Build_DirEntry "notes.txt" true None] in
  let first :=
    RAGSystem.add_papers_from_folder (runtime:=ascii_runtime) system folder
      no_metadata true in
  let second :=
    RAGSystem.add_papers_from_folder (runtime:=ascii_runtime) first.2 folder
      no_metadata false in
  first.1 = (1, 4) ∧ second.1 = (0, 0)
  ∧ VectorStore.get_paper_count (RAGSystem.vector_store first.2) = 1
  ∧ VectorStore.get_paper_count (RAGSystem.vector_store second.2) = 1.
Proof. vm_compute. done. Qed.

(** Two chunks of one paper and one of another: two sources, the twice-found
    paper first, and the source of the earlier search is gone. *)
Example format_results_two_sources :
  Source.text
    <$> MedicalLiteratureSearchTool.last_sources
          (MedicalLiteratureSearchTool.execute (backend:=sample_backend)
             used_tool empty_store (search_input "statins" None None)).2
  = ["Statins in primary prevention - 2021 - Heart";
     "Aspirin revisited - 2019 - Unknown Journal"].
Proof. vm_compute. reflexivity. Qed.

(** C7 on a backend that is down and on a search without matches in topic
    Cardiology from 2022 on. *)
Lemma execute_error_and_no_results_witness :
  (MedicalLiteratureSearchTool.execute (backend:=sample_backend) used_tool
     empty_store (search_input "down" (Some "Cardiology") None)).1
  = "Search error: index unavailable"
  ∧ str_in "Cardiology"
      (MedicalLiteratureSearchTool.execute (backend:=sample_backend) used_tool
         empty_store (search_input "aspirin" (Some "Cardiology") (Some 2022))).1
    = true
  ∧ str_in "2022"
      (MedicalLiteratureSearchTool.execute (backend:=sample_backend) used_tool
         empty_store (search_input "aspirin" (Some "Cardiology") (Some 2022))).1
    = true.
Proof.
  split.
  - destruct (execute_error_and_no_results (backend:=sample_backend) used_tool
                empty_store (search_input "down" (Some "Cardiology") None))
      as (Herror & _ & _).
    destruct (Herror "Search error: index unavailable") as [Hout _];
      [vm_compute; reflexivity|exact Hout].
  - destruct (execute_error_and_no_results (backend:=sample_backend) used_tool
                empty_store
                (search_input "aspirin" (Some "Cardiology") (Some 2022)))
      as (_ & Hempty & _).
    destruct Hempty as (_ & Htopic & _ & Hmin & _); [vm_compute; reflexivity..|].
    split; [exact (Htopic "Cardiology" eq_refl)|exact (Hmin 2022 eq_refl)].
Defined.

(** C10 on the same two searches: the source of the earlier search stays. *)
Lemma execute_failure_keeps_sources_witness :
  (truthy (SearchResults.error
             (VectorStore.search (backend:=sample_backend) empty_store "down"
                (Some "Cardiology") None None None)) = true
   ∧ MedicalLiteratureSearchTool.last_sources
       (MedicalLiteratureSearchTool.execute (backend:=sample_backend)
          used_tool empty_store (search_input "down" (Some "Cardiology") None)).2
     = MedicalLiteratureSearchTool.last_sources used_tool)
  ∧ (SearchResults.is_empty
       (VectorStore.search (backend:=sample_backend) empty_store "aspirin"
          None (Some "Review") None None) = true
     ∧ MedicalLiteratureSearchTool.last_sources
         (MedicalLiteratureSearchTool.execute (backend:=sample_backend)
            used_tool empty_store
            (Build_ToolInput "aspirin" None (Some "Review") None None)).2
       = MedicalLiteratureSearchTool.last_sources used_tool).
Proof.
  split; (split; [vm_compute; reflexivity|]).
  - apply (execute_failure_keeps_sources (backend:=sample_backend) used_tool
             empty_store (search_input "down" (Some "Cardiology") None)).
    left. vm_compute. reflexivity.
  - apply (execute_failure_keeps_sources (backend:=sample_backend) used_tool
             empty_store
             (Build_ToolInput "aspirin" None (Some "Review") None None)).
    right. vm_compute. reflexivity.
Defined.

(** C5 on a paper with an abstract and two sections, the second without a
    title: the abstract first, then the pieces of the sections. *)
Lemma process_medical_paper_chunks_witness :
  ∃ paper paper_chunks self',
    DocumentProcessor.process_medical_paper (runtime:=ascii_runtime)
      sample_processor sample_file no_metadata
    = (Some (paper, paper_chunks), self')
    ∧ PaperChunk.chunk_index <$> paper_chunks = [0; 1; 2; 3]
    ∧ PaperChunk.section_title <$> paper_chunks
      = [Some "Abstract"; Some "Methods"; Some "Methods";
         Some "Untitled Section"]
    ∧ ∀ k c, paper_chunks !! k = Some c →
        PaperChunk.chunk_index c = Z.of_nat k.
Proof.
  eexists _, _, _. split; [vm_compute; reflexivity|].
  split; [reflexivity|]. split; [reflexivity|].
  edestruct (λ self', process_medical_paper_chunks (runtime:=ascii_runtime)
                          sample_processor self' sample_file no_metadata)
    as (root & body & _ & _ & Hindex & _); [vm_compute; reflexivity|].
  exact Hindex.
Defined.

